(** * mbtiles: a read-only access layer over an MBTiles container

    A shallow embedding of [mbtiles/mbtiles.go]: the tile-format detector,
    the construction of a tileset handle ([NewDB]), and the three readers
    ([ReadTile], [ReadGrid], [ReadMetadata]).

    What the Go code obtains from its collaborators is kept at their
    interface: the SQL store is a record of the answers it gives to the
    queries the code issues, the compression envelopes and the JSON codec are
    Section variables, and the code's own decisions are written out. *)

From Stdlib Require Import ZArith Lia List Permutation.
From Stdlib Require Import Strings.Byte Strings.Ascii DecimalString.
From Stdlib Require Import Floats.SpecFloat.
From stdpp Require Import gmap strings list fin_maps.

Set Default Proof Using "Type".

(** ** Byte slices, strings and errors *)

(** A Go [[]byte]; the nil slice and the empty slice are both [[]]. *)
Abbreviation bytes := (list byte).

(** [bytes.HasPrefix(s, prefix)]. *)
Fixpoint HasPrefix (s prefix : bytes) {struct prefix} : bool :=
  match prefix, s with
  | [], _ => true
  | p :: prefix', c :: s' => Byte.eqb c p && HasPrefix s' prefix'
  | _ :: _, [] => false
  end.

(** Go error values.  [sql.ErrNoRows] is the only sentinel the code compares
    against; every other error is known by its message. *)
Inductive error :=
| ErrNoRows
| errors_New (msg : string).

Definition Error (e : error) : string :=
  match e with
  | ErrNoRows => "sql: no rows in result set"
  | errors_New msg => msg
  end.

Global Instance error_eq_dec : EqDecision error.
Proof. solve_decision. Defined.

(** ** Tile formats *)

Inductive TileFormat := UNKNOWN | GZIP | ZLIB | PNG | JPG | PBF | WEBP.

Global Instance TileFormat_eq_dec : EqDecision TileFormat.
Proof. solve_decision. Defined.

(** The [iota] numbering of the constants ([TileFormat] is a [uint8]). *)
Definition TileFormat_tag (t : TileFormat) : Z :=
  match t with
  | UNKNOWN => 0 | GZIP => 1 | ZLIB => 2 | PNG => 3
  | JPG => 4 | PBF => 5 | WEBP => 6
  end%Z.

Definition TileFormat_String (t : TileFormat) : string :=
  match t with
  | PNG => "png"
  | JPG => "jpg"
  | PBF => "pbf"
  | WEBP => "webp"
  | _ => ""
  end.

Definition TileFormat_ContentType (t : TileFormat) : string :=
  match t with
  | PNG => "image/png"
  | JPG => "image/jpeg"
  | PBF => "application/x-protobuf"
  | WEBP => "image/webp"
  | _ => ""
  end.

(** ** The format detector *)

(** The entries of the [patterns] map literal of [detectTileFormat]. *)
Definition patterns : list (TileFormat * bytes) :=
  [ (GZIP, [x1f; x8b]);
    (ZLIB, [x78; x9c]);
    (PNG,  [x89; x50; x4e; x47; x0d; x0a; x1a; x0a]);
    (JPG,  [xff; xd8; xff]);
    (WEBP, [x52; x49; x46; x46; xc0; x00; x00; x00;
            x57; x45; x42; x50; x56; x50]) ].

(** [for format, pattern := range patterns { ... }] followed by the final
    [return UNKNOWN, errors.New(...)].  Go leaves the order in which [range]
    visits a map unspecified, so the order of one run is the argument [iter]:
    some permutation of [patterns]. *)
Fixpoint detectTileFormat (iter : list (TileFormat * bytes)) (data : bytes)
  : TileFormat * option error :=
  match iter with
  | [] => (UNKNOWN, Some (errors_New "Could not detect tile format"))
  | (format, pattern) :: rest =>
      if HasPrefix data pattern then (format, None)
      else detectTileFormat rest data
  end.

(** An iteration order that one run of [range patterns] can take. *)
Definition range_order (iter : list (TileFormat * bytes)) : Prop :=
  Permutation iter patterns.

(** ** The store and the queries issued to it *)

(** A Go [(value, error)] pair of which one side is meaningful. *)
Inductive result (A : Type) :=
| Ok (a : A)
| Fail (err : error).
Arguments Ok {A} a.
Arguments Fail {A} err.

(** The SQL statements of the package. *)
Inductive Query :=
| SelectSampleTile                 (* select tile_data from tiles limit 1 *)
| CountView (name : string)        (* SELECT count(...) FROM sqlite_master ... *)
| SelectSampleGrid                 (* select grid from grids where grid is not null LIMIT 1 *)
| SelectTile (z x y : Z)           (* select tile_data from tiles where ... *)
| SelectGrid (z x y : Z)           (* select grid from grids where ... *)
| SelectGridData (z x y : Z)       (* select key_name, key_json FROM grid_data where ... *)
| SelectMetadata                   (* select * from metadata where value is not '' *)
| SelectZoomRange.                 (* select min(zoom_level), max(zoom_level) from tiles *)

(** What [rows.Scan(&key, &value)] does to the two variables for one row of
    the metadata cursor.  [ReadMetadata] ignores the error of [Scan], and
    [key] and [value] live outside the loop, so a failed [Scan] leaves the
    previous row's strings in whatever it did not reach. *)
Inductive scan2 :=
| ScanBoth (k v : string)   (* both columns converted *)
| ScanFirst (k : string)    (* the second column failed: only [key] is set *)
| ScanNone.                 (* the first column (or the arity) failed *)

(** An open container, as the answers it gives.  [QueryRow(...).Scan(...)]
    answers with the scanned columns or an error, [ErrNoRows] included;
    [Query(...)] answers with an error or a cursor, given as the outcome of
    [Scan] on each of its rows. *)
Record Store := {
  sample_tile   : result bytes;
  count_view    : string -> result Z;
  sample_grid   : result bytes;
  tile_at       : Z -> Z -> Z -> result bytes;
  grid_at       : Z -> Z -> Z -> result bytes;
  grid_data_at  : Z -> Z -> Z -> result (list (result (string * bytes)));
  metadata_rows : result (list scan2);
  zoom_range    : result (Z * Z);
}.

(** The type of the store's answer to each statement. *)
Definition answer (q : Query) : Type :=
  match q with
  | SelectSampleTile | SelectSampleGrid | SelectTile _ _ _ | SelectGrid _ _ _ =>
      result bytes
  | CountView _ => result Z
  | SelectGridData _ _ _ => result (list (result (string * bytes)))
  | SelectMetadata => result (list scan2)
  | SelectZoomRange => result (Z * Z)
  end.

Definition ask (s : Store) (q : Query) : answer q :=
  match q with
  | SelectSampleTile => sample_tile s
  | CountView name => count_view s name
  | SelectSampleGrid => sample_grid s
  | SelectTile z x y => tile_at s z x y
  | SelectGrid z x y => grid_at s z x y
  | SelectGridData z x y => grid_data_at s z x y
  | SelectMetadata => metadata_rows s
  | SelectZoomRange => zoom_range s
  end.

(** ** Computations: the queries issued so far, and a value or a panic *)

Inductive outcome (A : Type) :=
| Done (a : A)
| Panic (msg : string).
Arguments Done {A} a.
Arguments Panic {A} msg.

Definition M (A : Type) : Type := list Query * outcome A.

Global Instance M_ret : MRet M := fun A a => ([], Done a).

Global Instance M_bind : MBind M := fun A B f m =>
  match m with
  | (t, Done a) => let '(t', r) := f a in (t ++ t', r)
  | (t, Panic msg) => (t, Panic msg)
  end.

(** Issue [q] to the store and receive its answer. *)
Definition query (s : Store) (q : Query) : M (answer q) := ([q], Done (ask s q)).

Definition panic {A} (msg : string) : M A := ([], Panic msg).

Definition issued {A} (m : M A) : list Query := fst m.
Definition returned {A} (m : M A) : outcome A := snd m.

(** ** Paths and time *)

Definition separator : ascii := "/"%char.

(** [filepath.Split]: cut immediately after the final separator. *)
Fixpoint filepath_Split (path : string) : string * string :=
  match path with
  | EmptyString => (EmptyString, EmptyString)
  | String c rest =>
      let '(dir, file) := filepath_Split rest in
      match dir with
      | String _ _ => (String c dir, file)
      | EmptyString =>
          if Ascii.eqb c separator then (String c EmptyString, file)
          else (EmptyString, String c file)
      end
  end.

(** [strings.Split(s, sep)] for a separator of one byte. *)
Fixpoint strings_Split (s : string) (sep : ascii) : list string :=
  match s with
  | EmptyString => [EmptyString]
  | String c rest =>
      if Ascii.eqb c sep then EmptyString :: strings_Split rest sep
      else match strings_Split rest sep with
           | x :: xs => String c x :: xs
           | [] => [String c EmptyString]
           end
  end.

(** The identifier computed by the first two statements of [NewDB]:
    [_, id := filepath.Split(filename); id = strings.Split(id, ".")[0]]. *)
Definition NewDB_id (filename : string) : string :=
  let '(_, id) := filepath_Split filename in
  match strings_Split id "."%char with
  | id :: _ => id
  | [] => EmptyString
  end.

(** A [time.Time] as nanoseconds since the zero time. *)
Definition Second : Z := 1000000000.

(** [t.Round(d)] for a positive [d]: to the nearest multiple, halves up. *)
Definition Round (t d : Z) : Z :=
  let r := (t mod d)%Z in
  if (r + r <? d)%Z then (t - r)%Z else (t + (d - r))%Z.

(** ** The tileset handle *)

Record DB := {
  filename           : string;
  db                 : Store;
  tileformat         : TileFormat;
  timestamp          : Z;
  hasUTFGrid         : bool;
  utfgridCompression : TileFormat;
  hasUTFGridData     : bool;
}.

(** The accessor methods of the handle. *)
Definition DB_TileFormat (d : DB) : TileFormat := tileformat d.
Definition DB_TileFormatString (d : DB) : string := TileFormat_String (tileformat d).
Definition DB_ContentType (d : DB) : string := TileFormat_ContentType (tileformat d).
Definition DB_HasUTFGrid (d : DB) : bool := hasUTFGrid d.
Definition DB_HasUTFGridData (d : DB) : bool := hasUTFGridData d.
Definition DB_UTFGridCompression (d : DB) : TileFormat := utfgridCompression d.
Definition DB_TimeStamp (d : DB) : Z := timestamp d.

(** The file system and the SQL driver, as [NewDB] sees them. *)
Record Env := {
  sql_Open : string -> result Store;
  os_Stat  : string -> result Z;      (* the file's [ModTime()] *)
}.

Definition fmt_v (err : error) : string := Error err.

(** [NewDB].  [iter_tile] and [iter_grid] are the orders in which the two
    calls of [detectTileFormat] happen to range over the pattern map. *)
Definition NewDB (env : Env) (path : string)
    (iter_tile iter_grid : list (TileFormat * bytes)) : M (result DB) :=
  let id := NewDB_id path in
  match sql_Open env path with
  | Fail err => mret (Fail err)
  | Ok conn =>
  match os_Stat env path with
  | Fail _ =>
      mret (Fail (errors_New
        ("could not read file stats for mbtiles file: " +:+ path +:+ String "010" "")))
  | Ok modTime =>
  sample ← query conn SelectSampleTile;
  match sample with
  | Fail err => mret (Fail err)
  | Ok data =>
  match detectTileFormat iter_tile data with
  | (_, Some err) => mret (Fail err)
  | (detected, None) =>
  let detected := if decide (detected = GZIP) then PBF else detected in
  let out := {| filename := EmptyString;
                db := conn;
                tileformat := detected;
                timestamp := Round modTime Second;
                hasUTFGrid := false;
                utfgridCompression := UNKNOWN;
                hasUTFGridData := false |} in
  count ← query conn (CountView "grids");
  match count with
  | Fail err => mret (Fail err)
  | Ok count =>
  if decide (count = 1%Z) then
    grid ← query conn SelectSampleGrid;
    match grid with
    | Fail ErrNoRows => mret (Ok out)
    | Fail err =>
        mret (Fail (errors_New
          ("could not read sample grid to determine type: " +:+ fmt_v err)))
    | Ok gridData =>
        match detectTileFormat iter_grid gridData with
        | (_, Some err) =>
            mret (Fail (errors_New
              ("could not determine UTF Grid compression type: " +:+ fmt_v err)))
        | (compression, None) =>
            count ← query conn (CountView "grid_data");
            match count with
            | Fail err => mret (Fail err)
            | Ok count =>
                mret (Ok {| filename := filename out;
                            db := db out;
                            tileformat := tileformat out;
                            timestamp := timestamp out;
                            hasUTFGrid := true;
                            utfgridCompression := compression;
                            hasUTFGridData := bool_decide (count = 1%Z) |})
            end
        end
    end
  else mret (Ok out)
  end end end end end.

(** ** Reading a tile *)

(** [ReadTile]: the slice behind [data] on entry, and the slice and error on
    return. *)
Definition ReadTile (tileset : DB) (z x y : Z) (data : bytes)
  : M (bytes * option error) :=
  r ← query (db tileset) (SelectTile z x y);
  match r with
  | Ok tile => mret (tile, None)
  | Fail ErrNoRows => mret ([], None)
  | Fail err => mret (data, Some err)
  end.

(** ** JSON values and Go maps *)

(** A [float64], as the Standard Library's IEEE 754 specification floats. *)
Abbreviation float64 := spec_float.

(** What [encoding/json] stores into an [interface{}]: nil, a bool, a
    [float64], a string, a [[]interface{}] or a [map[string]interface{}]. *)
#[warnings="-register-all"]
Inductive value :=
| Null
| Bool (b : bool)
| Number (f : float64)
| Str (s : string)
| Array (elems : list value)
| Object (fields : gmap string value).

(** A Go map variable is nil ([None]) or points to a map. *)
Abbreviation gomap V := (option (gmap string V)).

(** [m[k] = v]: a run-time panic on a nil map. *)
Definition assign {V} (m : gomap V) (k : string) (v : V) : M (gomap V) :=
  match m with
  | None => panic "assignment to entry in nil map"
  | Some entries => mret (Some (<[k := v]> entries))
  end.

(** [_, ok := m[k]]: reading a nil map is allowed and finds nothing. *)
Definition has_key {V} (m : gomap V) (k : string) : bool :=
  match m with
  | None => false
  | Some entries => bool_decide (is_Some (entries !! k))
  end.

(** A [map[string]interface{}] held in an [interface{}], as the encoder
    treats it: a nil map is written as [null]. *)
Definition interface_of_map (m : gomap value) : value :=
  match m with
  | None => Null
  | Some fields => Object fields
  end.

(** The values of the typed metadata mapping: what [ReadMetadata] stores in
    its [map[string]interface{}]. *)
Inductive mdval :=
| MInt (n : Z)                 (* from [strconv.Atoi] and the zoom fallback *)
| MFloats (l : list float64)   (* from [stringToFloats] *)
| MString (s : string)         (* the raw column *)
| MJSON (v : value).           (* spliced from the [json] row *)

(** ** [strconv.Atoi] *)

Definition digit_of (c : ascii) : option Z :=
  let n := Z.of_N (N_of_ascii c) in
  if ((48 <=? n) && (n <=? 57))%Z then Some (n - 48)%Z else None.

Fixpoint digits_value (s : string) (acc : Z) : option Z :=
  match s with
  | EmptyString => Some acc
  | String c rest =>
      match digit_of c with
      | Some d => digits_value rest (10 * acc + d)%Z
      | None => None
      end
  end.

Definition quote : string := String "034" EmptyString.

Definition NumError (s kind : string) : error :=
  errors_New ("strconv.Atoi: parsing " +:+ quote +:+ s +:+ quote +:+ ": " +:+ kind).

(** An optional sign, then decimal digits only; the result fits an [int] of
    64 bits or is clamped and reported out of range. *)
Definition strconv_Atoi (s : string) : Z * option error :=
  let '(neg, body) :=
    match s with
    | String "+" rest => (false, rest)
    | String "-" rest => (true, rest)
    | _ => (false, s)
    end in
  match body with
  | EmptyString => (0%Z, Some (NumError s "invalid syntax"))
  | _ =>
      match digits_value body 0 with
      | None => (0%Z, Some (NumError s "invalid syntax"))
      | Some n =>
          let v := if neg : bool then (- n)%Z else n in
          if (v <? - 2 ^ 63)%Z then ((- 2 ^ 63)%Z, Some (NumError s "value out of range"))
          else if (2 ^ 63 - 1 <? v)%Z then ((2 ^ 63 - 1)%Z, Some (NumError s "value out of range"))
          else (v, None)
      end
  end.

(** ** The readers, over the compression and JSON packages *)

(** [compress/zlib] or [compress/gzip].  [NewReader b] fails when the header
    of [b] is rejected; otherwise it is the reader, given as the bytes it
    delivers before the end of the stream (or before a later stream error).
    [Writer p] is what [NewWriter(&buf)], writing [p] and [Close()] leave in
    [buf]. *)
Record Envelope := {
  NewReader : bytes -> result bytes;
  Writer    : bytes -> bytes;
}.

Definition json_kind (v : value) : string :=
  match v with
  | Null => "null"
  | Bool _ => "bool"
  | Number _ => "number"
  | Str _ => "string"
  | Array _ => "array"
  | Object _ => "object"
  end.

Definition UnmarshalTypeError (v : value) : error :=
  errors_New ("json: cannot unmarshal " +:+ json_kind v +:+
              " into Go value of type map[string]interface {}").

(** Storing a decoded JSON value through a [*map[string]V] whose element
    type is [interface{}] ([inj] puts a decoded value into it): an object
    goes into the existing map, or a fresh one when the map is nil, on top of
    the entries already there; [null] sets the map to nil; anything else is
    a type error and leaves the map alone. *)
Definition store_map {V} (inj : value -> V) (decoded : result value)
    (dst : gomap V) : gomap V * option error :=
  match decoded with
  | Fail err => (dst, Some err)
  | Ok Null => (None, None)
  | Ok (Object fields) => (Some ((inj <$> fields) ∪ default ∅ dst), None)
  | Ok other => (dst, Some (UnmarshalTypeError other))
  end.

Section Readers.

Variables zlib gzip : Envelope.

(** [json.Unmarshal(data, &v)] for a [v] of type [interface{}]: the whole
    of [data] must be one JSON value. *)
Variable json_Unmarshal : bytes -> result value.

(** [json.NewDecoder(r).Decode(&v)] for a [v] of type [interface{}], on a
    reader delivering the given bytes: the first JSON value of the
    stream. *)
Variable json_Decode : bytes -> result value.

(** [json.NewEncoder(w).Encode(v)]: the bytes written to [w]. *)
Variable json_Encode : value -> result bytes.

(** [stringToFloats], which this package defines outside [mbtiles.go]. *)
Variable stringToFloats : string -> list float64 * option error.

(** [json.Unmarshal(data, &m)] for a map [m]. *)
Definition Unmarshal_map {V} (inj : value -> V) (data : bytes) (m : gomap V)
  : gomap V * option error :=
  store_map inj (json_Unmarshal data) m.

(** [json.NewDecoder(r).Decode(&m)] for a map [m]. *)
Definition Decode_map (stream : bytes) (m : gomap value)
  : gomap value * option error :=
  store_map (fun v => v) (json_Decode stream) m.

(** *** Reading a grid *)

(** The [for rows.Next()] loop of [ReadGrid] over the rows of the cursor:
    each value is unmarshalled into a fresh map, the error of
    [json.Unmarshal] is dropped, and the map goes under the row's key. *)
Fixpoint grid_data_loop (rows : list (result (string * bytes)))
    (keydata : gmap string value) : result (gmap string value) :=
  match rows with
  | [] => Ok keydata
  | Fail err :: _ =>
      Fail (errors_New ("could not fetch grid data: " +:+ fmt_v err))
  | Ok (key, value) :: rest =>
      let '(valuejson, _) := Unmarshal_map (fun v => v) value (Some ∅) in
      grid_data_loop rest (<[key := interface_of_map valuejson]> keydata)
  end.

(** The value that the loop puts under a row's key. *)
Definition row_value (raw : bytes) : value :=
  interface_of_map (Unmarshal_map (fun v => v) raw (Some ∅)).1.

(** The mapping from key names to decoded objects that detail rows
    [(key, raw, object)] stand for. *)
Definition keydata_of (rows : list (string * bytes * gmap string value))
  : gmap string value :=
  fold_left (fun m r => <[r.1.1 := Object r.2]> m) rows ∅.

(** The reader and writer [ReadGrid] selects from the handle's grid
    compression: zlib for [ZLIB], gzip otherwise. *)
Definition envelope_of (tileset : DB) : Envelope :=
  if decide (utfgridCompression tileset = ZLIB) then zlib else gzip.

Definition ReadGrid (tileset : DB) (z x y : Z) (data : bytes)
  : M (bytes * option error) :=
  if negb (hasUTFGrid tileset) then
    mret (data, Some (errors_New "Tileset does not contain UTFgrids"))
  else
  r ← query (db tileset) (SelectGrid z x y);
  match r with
  | Fail ErrNoRows => mret ([], None)
  | Fail err => mret (data, Some err)
  | Ok data =>
  if hasUTFGridData tileset then
    rows ← query (db tileset) (SelectGridData z x y);
    match rows with
    | Fail err =>
        mret (data, Some (errors_New ("cannot fetch grid data: " +:+ fmt_v err)))
    | Ok rows =>
    match grid_data_loop rows ∅ with
    | Fail err => mret (data, Some err)
    | Ok keydata =>
    if decide (size keydata = 0) then mret (data, None) else
    let envelope := envelope_of tileset in
    match NewReader envelope data with
    | Fail err => mret (data, Some err)
    | Ok zreader =>
    let err : option error := None in
    let '(utfjson, _) := Decode_map zreader None in
    utfjson ← assign utfjson "data" (Object keydata);
    match err with
    | Some err => mret (data, Some err)
    | None =>
    match json_Encode (interface_of_map utfjson) with
    | Fail err => mret (data, Some err)
    | Ok encoded => mret (Writer envelope encoded, None)
    end end end end end
  else mret (data, None)
  end.

(** *** Reading the metadata *)

Definition Errorf_item (key : string) (err : error) : error :=
  errors_New ("cannot read metadata item " +:+ key +:+ ": " +:+ fmt_v err).

(** The body of the [for rows.Next()] loop of [ReadMetadata] after
    [rows.Scan]: [Ok] continues with the mapping, [Fail] is the early
    [return nil, err]. *)
Definition metadata_case (key value : string) (metadata : gomap mdval)
  : M (result (gomap mdval)) :=
  if decide (key = "maxzoom" \/ key = "minzoom") then
    let '(n, err) := strconv_Atoi value in
    metadata ← assign metadata key (MInt n);
    match err with
    | Some err => mret (Fail (Errorf_item key err))
    | None => mret (Ok metadata)
    end
  else if decide (key = "bounds" \/ key = "center") then
    let '(fs, err) := stringToFloats value in
    metadata ← assign metadata key (MFloats fs);
    match err with
    | Some err => mret (Fail (Errorf_item key err))
    | None => mret (Ok metadata)
    end
  else if decide (key = "json") then
    let '(metadata, err) :=
      Unmarshal_map MJSON (String.list_byte_of_string value) metadata in
    match err with
    | Some err =>
        mret (Fail (errors_New
          ("unable to parse JSON metadata item: " +:+ fmt_v err)))
    | None => mret (Ok metadata)
    end
  else
    metadata ← assign metadata key (MString value);
    mret (Ok metadata).

(** [rows.Scan(&key, &value)] with its error ignored. *)
Definition scan_into (row : scan2) (key value : string) : string * string :=
  match row with
  | ScanBoth k v => (k, v)
  | ScanFirst k => (k, value)
  | ScanNone => (key, value)
  end.

Fixpoint metadata_loop (rows : list scan2) (key value : string)
    (metadata : gomap mdval) : M (result (gomap mdval)) :=
  match rows with
  | [] => mret (Ok metadata)
  | row :: rest =>
      let '(key, value) := scan_into row key value in
      r ← metadata_case key value metadata;
      match r with
      | Fail err => mret (Fail err)
      | Ok metadata => metadata_loop rest key value metadata
      end
  end.

(** The part of [ReadMetadata] after the loop: supplement the zoom
    bounds from the tile index. *)
Definition infer_zoom (tileset : DB) (metadata : gomap mdval)
  : M (gomap mdval * option error) :=
  let hasMinZoom := has_key metadata "minzoom" in
  let hasMaxZoom := has_key metadata "maxzoom" in
  if negb (hasMinZoom && hasMaxZoom) then
    r ← query (db tileset) SelectZoomRange;
    match r with
    | Fail _ => mret (metadata, None)
    | Ok (minZoom, maxZoom) =>
        metadata ← assign metadata "minzoom" (MInt minZoom);
        metadata ← assign metadata "maxzoom" (MInt maxZoom);
        mret (metadata, None)
    end
  else mret (metadata, None).

Definition ReadMetadata (tileset : DB) : M (gomap mdval * option error) :=
  rows ← query (db tileset) SelectMetadata;
  match rows with
  | Fail err => mret (None, Some err)
  | Ok rows =>
      r ← metadata_loop rows EmptyString EmptyString (Some ∅);
      match r with
      | Fail err => mret (None, Some err)
      | Ok metadata => infer_zoom tileset metadata
      end
  end.

End Readers.

(** ** Reference codecs

    Executable instances of the packages the readers are stated over, for
    running the readers on concrete containers.  They cover a fragment of
    what the Go packages accept and are applied to that fragment only:
    - deflate streams made of stored blocks, in a zlib or a gzip envelope
      (gzip without optional header fields);
    - JSON over ASCII text, without [\u] escapes, whose numbers are integer
      literals of at most fifteen digits (so that their [float64] is exact);
      text cut short before its value is complete is a syntax error, as it
      is for the Go decoder. *)

Module Reference.

(** *** Stored-block deflate, zlib and gzip *)

Definition byte_of_Z (n : Z) : byte :=
  default x00 (Byte.of_N (Z.to_N (n mod 256))).

Definition Z_of_byte (b : byte) : Z := Z.of_N (Byte.to_N b).

Definition le16 (n : Z) : bytes :=
  [byte_of_Z n; byte_of_Z (Z.shiftr n 8)].

Definition le32 (n : Z) : bytes :=
  [byte_of_Z n; byte_of_Z (Z.shiftr n 8);
   byte_of_Z (Z.shiftr n 16); byte_of_Z (Z.shiftr n 24)].

Definition be32 (n : Z) : bytes := rev (le32 n).

Definition adler32 (p : bytes) : Z :=
  let '(a, b) :=
    fold_left (fun '(a, b) c =>
                 let a' := ((a + Z_of_byte c) mod 65521)%Z in
                 (a', ((b + a') mod 65521)%Z))
              p (1%Z, 0%Z) in
  (b * 65536 + a)%Z.

Definition crc32_byte (crc : Z) (c : byte) : Z :=
  Nat.iter 8 (fun crc =>
                if Z.testbit crc 0
                then Z.lxor (Z.shiftr crc 1) 3988292384 (* 0xEDB88320 *)
                else Z.shiftr crc 1)
           (Z.lxor crc (Z_of_byte c)).

Definition crc32 (p : bytes) : Z :=
  Z.lxor (fold_left crc32_byte p 4294967295%Z) 4294967295%Z.

Definition block_max : nat := Z.to_nat 65535.

(** The payload as stored blocks of at most 65535 bytes, the last one
    marked final. *)
Fixpoint stored_blocks (fuel : nat) (p : bytes) : bytes :=
  let n := Z.of_nat (length p) in
  match fuel with
  | S fuel' =>
      if (65535 <? n)%Z then
        [x00] ++ le16 65535 ++ le16 0 ++ take block_max p
        ++ stored_blocks fuel' (drop block_max p)
      else [x01] ++ le16 n ++ le16 (Z.lxor n 65535) ++ p
  | O => [x01] ++ le16 n ++ le16 (Z.lxor n 65535) ++ p
  end.

Definition deflate (p : bytes) : bytes := stored_blocks (length p / block_max) p.

(** The bytes a deflate reader delivers from a stream of stored blocks; it
    stops at the final block, at a malformed block, or at a block of
    another type. *)
Fixpoint inflate (fuel : nat) (s : bytes) : bytes :=
  match fuel, s with
  | S fuel', h :: l0 :: l1 :: n0 :: n1 :: body =>
      let len := (Z_of_byte l0 + 256 * Z_of_byte l1)%Z in
      let nlen := (Z_of_byte n0 + 256 * Z_of_byte n1)%Z in
      if negb (Z.land (Z.shiftr (Z_of_byte h) 1) 3 =? 0)%Z then []
      else if negb (Z.lxor len 65535 =? nlen)%Z then []
      else
        let block := take (Z.to_nat len) body in
        if negb (Z.of_nat (length block) =? len)%Z then block
        else if Z.testbit (Z_of_byte h) 0 then block
        else block ++ inflate fuel' (drop (Z.to_nat len) body)
  | _, _ => []
  end.

Definition zlib_NewReader (b : bytes) : result bytes :=
  match b with
  | cmf :: flg :: body =>
      let c := Z_of_byte cmf in
      let f := Z_of_byte flg in
      if negb (Z.land c 15 =? 8)%Z || (7 <? Z.shiftr c 4)%Z
         || negb ((c * 256 + f) mod 31 =? 0)%Z
      then Fail (errors_New "zlib: invalid header")
      else if negb (Z.land f 32 =? 0)%Z
      then Fail (errors_New "zlib: invalid dictionary")
      else Ok (inflate (length body) body)
  | _ => Fail (errors_New "unexpected EOF")
  end.

Definition zlib_Writer (p : bytes) : bytes :=
  [x78; x9c] ++ deflate p ++ be32 (adler32 p).

Definition zlib : Envelope :=
  {| NewReader := zlib_NewReader; Writer := zlib_Writer |}.

Definition gzip_NewReader (b : bytes) : result bytes :=
  match b with
  | id1 :: id2 :: cm :: flg :: _ :: _ :: _ :: _ :: _ :: _ :: body =>
      if negb (Byte.eqb id1 x1f && Byte.eqb id2 x8b && Byte.eqb cm x08)
      then Fail (errors_New "gzip: invalid header")
      else if negb (Byte.eqb flg x00)
      then Fail (errors_New "gzip: header fields are outside the reference")
      else Ok (inflate (length body) body)
  | [] => Fail (errors_New "EOF")
  | _ => Fail (errors_New "unexpected EOF")
  end.

Definition gzip_Writer (p : bytes) : bytes :=
  [x1f; x8b; x08; x00; x00; x00; x00; x00; x00; xff]
  ++ deflate p ++ le32 (crc32 p) ++ le32 (Z.of_nat (length p)).

Definition gzip : Envelope :=
  {| NewReader := gzip_NewReader; Writer := gzip_Writer |}.

(** *** JSON text *)

Definition syntax_error : error := errors_New "json: syntax error".

Definition is_space (b : byte) : bool :=
  match b with
  | x20 | x09 | x0a | x0d => true
  | _ => false
  end.

Fixpoint skip_space (s : bytes) : bytes :=
  match s with
  | b :: rest => if is_space b then skip_space rest else s
  | [] => []
  end.

Definition unescape (b : byte) : option ascii :=
  match b with
  | x22 => Some "034"%char
  | x5c => Some "\"%char
  | x2f => Some "/"%char
  | x62 => Some "008"%char
  | x66 => Some "012"%char
  | x6e => Some "010"%char
  | x72 => Some "013"%char
  | x74 => Some "009"%char
  | _ => None
  end.

(** The characters of a string literal, after its opening quote. *)
Fixpoint read_string (s : bytes) : option (string * bytes) :=
  match s with
  | [] => None
  | x22 :: rest => Some (EmptyString, rest)
  | x5c :: e :: rest =>
      c ← unescape e;
      '(str, rest) ← read_string rest;
      Some (String c str, rest)
  | b :: rest =>
      if (Z_of_byte b <? 32)%Z || (127 <? Z_of_byte b)%Z then None
      else
        '(str, rest) ← read_string rest;
        Some (String (ascii_of_byte b) str, rest)
  end.

Definition digit_of_byte (b : byte) : option Z :=
  let n := Z_of_byte b in
  if ((48 <=? n) && (n <=? 57))%Z then Some (n - 48)%Z else None.

Fixpoint read_digits (s : bytes) (acc : Z) (count : nat) : Z * nat * bytes :=
  match s with
  | b :: rest =>
      match digit_of_byte b with
      | Some d => read_digits rest (10 * acc + d)%Z (S count)
      | None => (acc, count, s)
      end
  | [] => (acc, count, [])
  end.

Definition float_of_Z (neg : bool) (n : Z) : float64 :=
  if (n =? 0)%Z then S754_zero neg
  else binary_normalize 53 1024 (if neg then - n else n) 0 false.

(** An integer literal: no leading zero, no fraction, no exponent. *)
Definition read_number (s : bytes) : option (value * bytes) :=
  let '(neg, body) :=
    match s with
    | x2d :: rest => (true, rest)
    | _ => (false, s)
    end in
  let '(n, count, rest) := read_digits body 0 0 in
  let leading_zero :=
    match body with
    | x30 :: _ => negb (count =? 1)%nat
    | _ => false
    end in
  let continues :=
    match rest with
    | x2e :: _ | x65 :: _ | x45 :: _ => true
    | _ => false
    end in
  if (count =? 0)%nat || (15 <? count)%nat || leading_zero || continues
  then None
  else Some (Number (float_of_Z neg n), rest).

(** Later members replace earlier ones of the same name. *)
Definition object_of (members : list (string * value)) : value :=
  Object (fold_left (fun m kv => <[kv.1 := kv.2]> m) members ∅).

Fixpoint read_value (fuel : nat) (s : bytes) : option (value * bytes) :=
  match fuel with
  | O => None
  | S fuel =>
      match skip_space s with
      | x6e :: x75 :: x6c :: x6c :: rest => Some (Null, rest)
      | x74 :: x72 :: x75 :: x65 :: rest => Some (Bool true, rest)
      | x66 :: x61 :: x6c :: x73 :: x65 :: rest => Some (Bool false, rest)
      | x22 :: rest =>
          '(str, rest) ← read_string rest;
          Some (Str str, rest)
      | x5b :: rest =>
          match skip_space rest with
          | x5d :: rest => Some (Array [], rest)
          | _ =>
              '(elems, rest) ← read_elems fuel rest;
              Some (Array elems, rest)
          end
      | x7b :: rest =>
          match skip_space rest with
          | x7d :: rest => Some (object_of [], rest)
          | _ =>
              '(members, rest) ← read_members fuel rest;
              Some (object_of members, rest)
          end
      | other => read_number other
      end
  end
with read_elems (fuel : nat) (s : bytes) : option (list value * bytes) :=
  match fuel with
  | O => None
  | S fuel =>
      '(v, rest) ← read_value fuel s;
      match skip_space rest with
      | x2c :: rest =>
          '(vs, rest) ← read_elems fuel rest;
          Some (v :: vs, rest)
      | x5d :: rest => Some ([v], rest)
      | _ => None
      end
  end
with read_members (fuel : nat) (s : bytes)
  : option (list (string * value) * bytes) :=
  match fuel with
  | O => None
  | S fuel =>
      match skip_space s with
      | x22 :: rest =>
          '(key, rest) ← read_string rest;
          match skip_space rest with
          | x3a :: rest =>
              '(v, rest) ← read_value fuel rest;
              match skip_space rest with
              | x2c :: rest =>
                  '(kvs, rest) ← read_members fuel rest;
                  Some ((key, v) :: kvs, rest)
              | x7d :: rest => Some ([(key, v)], rest)
              | _ => None
              end
          | _ => None
          end
      | _ => None
      end
  end.

Definition json_Unmarshal (data : bytes) : result value :=
  match read_value (S (length data)) data with
  | Some (v, rest) =>
      match skip_space rest with
      | [] => Ok v
      | _ => Fail syntax_error
      end
  | None => Fail syntax_error
  end.

Definition json_Decode (stream : bytes) : result value :=
  match read_value (S (length stream)) stream with
  | Some (v, _) => Ok v
  | None => Fail syntax_error
  end.

(** The encoder: object keys in byte order, the characters [<], [>] and
    [&] escaped as [encoding/json] does by default. *)

Definition hex_digit (n : Z) : byte :=
  byte_of_Z (if (n <? 10)%Z then 48 + n else 87 + n).

Definition u00 (n : Z) : bytes :=
  [x5c; x75; x30; x30; hex_digit (Z.shiftr n 4); hex_digit (Z.land n 15)].

Definition escape (c : ascii) : bytes :=
  let b := byte_of_ascii c in
  match b with
  | x22 => [x5c; x22]
  | x5c => [x5c; x5c]
  | x0a => [x5c; x6e]
  | x0d => [x5c; x72]
  | x09 => [x5c; x74]
  | x3c | x3e | x26 => u00 (Z_of_byte b)
  | _ => if (Z_of_byte b <? 32)%Z then u00 (Z_of_byte b) else [b]
  end.

Fixpoint escape_all (s : string) : bytes :=
  match s with
  | EmptyString => []
  | String c rest => escape c ++ escape_all rest
  end.

Definition write_string (s : string) : bytes := [x22] ++ escape_all s ++ [x22].

Definition decimal (n : Z) : bytes :=
  String.list_byte_of_string (NilZero.string_of_uint (N.to_uint (Z.to_N n))).

(** A [float64] holding an integer below [10 ^ 21] in magnitude. *)
Definition write_number (f : float64) : result bytes :=
  let unsupported := Fail (errors_New "json: number outside the reference") in
  let signed (neg : bool) (digits : bytes) :=
    if neg then x2d :: digits else digits in
  match f with
  | S754_zero neg => Ok (signed neg [x30])
  | S754_finite neg m e =>
      let n :=
        if (0 <=? e)%Z then Some (Z.pos m * 2 ^ e)%Z
        else if (Z.pos m mod 2 ^ (- e) =? 0)%Z then Some (Z.pos m / 2 ^ (- e))%Z
        else None in
      match n with
      | Some n => if (n <? 10 ^ 21)%Z then Ok (signed neg (decimal n)) else unsupported
      | None => unsupported
      end
  | _ => Fail (errors_New "json: unsupported value")
  end.

Fixpoint insert_sorted (kv : string * value) (l : list (string * value))
  : list (string * value) :=
  match l with
  | [] => [kv]
  | kv' :: rest =>
      if String.leb kv.1 kv'.1 then kv :: l else kv' :: insert_sorted kv rest
  end.

Definition sorted_members (fields : gmap string value) : list (string * value) :=
  foldr insert_sorted [] (map_to_list fields).

Fixpoint join (sep : bytes) (parts : list bytes) : bytes :=
  match parts with
  | [] => []
  | [p] => p
  | p :: rest => p ++ sep ++ join sep rest
  end.

Fixpoint all_ok (rs : list (result bytes)) : result (list bytes) :=
  match rs with
  | [] => Ok []
  | Fail err :: _ => Fail err
  | Ok b :: rest =>
      match all_ok rest with
      | Ok bs => Ok (b :: bs)
      | Fail err => Fail err
      end
  end.

Fixpoint write_value (fuel : nat) (v : value) : result bytes :=
  match fuel with
  | O => Fail (errors_New "json: nesting outside the reference")
  | S fuel =>
      match v with
      | Null => Ok [x6e; x75; x6c; x6c]
      | Bool true => Ok [x74; x72; x75; x65]
      | Bool false => Ok [x66; x61; x6c; x73; x65]
      | Number f => write_number f
      | Str s => Ok (write_string s)
      | Array elems =>
          match all_ok (map (write_value fuel) elems) with
          | Ok parts => Ok ([x5b] ++ join [x2c] parts ++ [x5d])
          | Fail err => Fail err
          end
      | Object fields =>
          let member (kv : string * value) :=
            match write_value fuel kv.2 with
            | Ok b => Ok (write_string kv.1 ++ [x3a] ++ b)
            | Fail err => Fail err
            end in
          match all_ok (map member (sorted_members fields)) with
          | Ok parts => Ok ([x7b] ++ join [x2c] parts ++ [x7d])
          | Fail err => Fail err
          end
      end
  end.

(** [Encoder.Encode] ends the value with a newline. *)
Definition json_Encode (v : value) : result bytes :=
  match write_value 64 v with
  | Ok b => Ok (b ++ [x0a])
  | Fail err => Fail err
  end.

(** [stringToFloats] on a comma-separated list of integers. *)
Definition stringToFloats (s : string) : list float64 * option error :=
  fold_left
    (fun '(out, err) part =>
       match err with
       | Some _ => (out, err)
       | None =>
           match strconv_Atoi part with
           | (n, None) => (out ++ [float_of_Z (n <? 0)%Z (Z.abs n)], None)
           | (_, Some e) => (out, Some e)
           end
       end)
    (strings_Split s ","%char) ([], None).

End Reference.

(** ** Row processing of the metadata, row by row *)

(** The strings that the [switch] of [ReadMetadata] sees for each row of the
    cursor, [key] and [value] being what the two variables hold before the
    first row. *)
Fixpoint scanned_pairs (rows : list scan2) (key value : string)
  : list (string * string) :=
  match rows with
  | [] => []
  | row :: rest =>
      let '(key, value) := scan_into row key value in
      (key, value) :: scanned_pairs rest key value
  end.

(** The cursor whose rows all scan into the given pairs. *)
Definition scanned (pairs : list (string * string)) : list scan2 :=
  map (fun kv => ScanBoth kv.1 kv.2) pairs.

(** What the cases of the [switch] other than [json] store for a row: an
    integer for the zoom bounds, floats for the bounds and the center, the
    string itself for any other key; with the error of the conversion. *)
Definition typed_value (stringToFloats : string -> list float64 * option error)
    (key value : string) : mdval * option error :=
  if decide (key = "maxzoom" \/ key = "minzoom") then
    let '(n, err) := strconv_Atoi value in (MInt n, err)
  else if decide (key = "bounds" \/ key = "center") then
    let '(fs, err) := stringToFloats value in (MFloats fs, err)
  else (MString value, None).

(** A row that is not [json] and whose conversion succeeds. *)
Definition converts (stringToFloats : string -> list float64 * option error)
    (kv : string * string) : Prop :=
  kv.1 <> "json" /\ (typed_value stringToFloats kv.1 kv.2).2 = None.

(** The mapping that converting rows build on top of [m], a later row
    replacing an earlier one of the same key. *)
Definition typed_rows (stringToFloats : string -> list float64 * option error)
    (pairs : list (string * string)) (m : gmap string mdval) : gmap string mdval :=
  fold_left (fun m kv => <[kv.1 := (typed_value stringToFloats kv.1 kv.2).1]> m)
            pairs m.

(** ** The identifier as the specification words it *)

Fixpoint has_dot (s : string) : bool :=
  match s with
  | EmptyString => false
  | String c rest => Ascii.eqb c "." || has_dot rest
  end.

(** A file name without its extension, the extension being the suffix that
    starts at the last dot. *)
Fixpoint trim_ext (s : string) : string :=
  match s with
  | EmptyString => EmptyString
  | String c rest =>
      if has_dot rest then String c (trim_ext rest)
      else if Ascii.eqb c "." then EmptyString
      else String c rest
  end.

(** Following the specification's words: the path's base name with its
    extension removed. *)
Definition spec_identifier (path : string) : string :=
  trim_ext (snd (filepath_Split path)).

(** ** Sample containers *)

Module Sample.

(** [[]byte(s)]. *)
Definition text (s : string) : bytes := String.list_byte_of_string s.

Definition no_such_table (name : string) : error :=
  errors_New ("no such table: " +:+ name).

(** Gzip-wrapped vector tiles at zoom levels 2 to 8, no grids, no metadata
    rows. *)
Definition vector_store : Store := {|
  sample_tile := Ok [x1f; x8b; x08; x00; x00; x00; x00; x00; x00; xff];
  count_view := fun _ => Ok 0%Z;
  sample_grid := Fail (no_such_table "grids");
  tile_at := fun _ _ _ => Fail ErrNoRows;
  grid_at := fun _ _ _ => Fail (no_such_table "grids");
  grid_data_at := fun _ _ _ => Fail (no_such_table "grid_data");
  metadata_rows := Ok [];
  zoom_range := Ok (2%Z, 8%Z);
|}.

(** Every path opens [vector_store], last modified 1.5 s after the zero
    time. *)
Definition vector_env : Env := {|
  sql_Open := fun _ => Ok vector_store;
  os_Stat := fun _ => Ok 1500000000%Z;
|}.

(** JSON text written with ['] where the text has a double quote. *)
Definition json (s : string) : bytes :=
  map (fun b => match b with x27 => x22 | _ => b end)
      (String.list_byte_of_string s).

(** The readers over the reference codecs. *)
Definition ReadGrid :=
  ReadGrid Reference.zlib Reference.gzip
           Reference.json_Unmarshal Reference.json_Decode Reference.json_Encode.

Definition ReadMetadata :=
  ReadMetadata Reference.json_Unmarshal Reference.stringToFloats.

(** Whether the reader's output, opened with [envelope], decodes to the
    JSON value that [expected] is the text of. *)
Definition decompressed_json (envelope : Envelope) (out : bytes)
    (expected : bytes) : Prop :=
  exists stream v,
    NewReader envelope out = Ok stream /\
    Reference.json_Decode stream = Ok v /\
    Reference.json_Unmarshal expected = Ok v.

(** PNG tiles with a grid at (0, 0, 0) only: [blob], with the detail rows
    [details]; the metadata table holds [metadata] and the tile index
    answers the zoom query with [zooms]. *)
Definition grid_store (blob : bytes) (details : list (result (string * bytes)))
    (metadata : list scan2) (zooms : result (Z * Z)) : Store := {|
  sample_tile := Ok [x89; x50; x4e; x47; x0d; x0a; x1a; x0a];
  count_view := fun _ => Ok 1%Z;
  sample_grid := Ok blob;
  tile_at := fun _ _ _ => Fail ErrNoRows;
  grid_at := fun z x y =>
    if decide ((z, x, y) = (0, 0, 0)%Z) then Ok blob else Fail ErrNoRows;
  grid_data_at := fun z x y =>
    if decide ((z, x, y) = (0, 0, 0)%Z) then Ok details else Ok [];
  metadata_rows := Ok metadata;
  zoom_range := zooms;
|}.

(** The handle that [NewDB] constructs over such a store whose grids are
    in a zlib envelope. *)
Definition grid_handle (store : Store) : DB := {|
  filename := EmptyString;
  db := store;
  tileformat := PNG;
  timestamp := 2000000000%Z;
  hasUTFGrid := true;
  utfgridCompression := ZLIB;
  hasUTFGridData := true;
|}.

(** A stored grid: the zlib envelope of a JSON object with no [data]. *)
Definition grid_blob : bytes :=
  Reference.zlib_Writer (json "{'grid': ['  !', ' !!']}").

(** The handle that [NewDB] constructs over [vector_store]. *)
Definition vector_handle : DB := {|
  filename := EmptyString;
  db := vector_store;
  tileformat := PBF;
  timestamp := 2000000000%Z;
  hasUTFGrid := false;
  utfgridCompression := UNKNOWN;
  hasUTFGridData := false;
|}.

(** Detail rows whose values are JSON objects. *)
Definition object_details : list (string * bytes * gmap string value) :=
  [ ("a", json "{'n': 1}", {[ "n" := Number (Reference.float_of_Z false 1) ]});
    ("b", json "{'n': 2}", {[ "n" := Number (Reference.float_of_Z false 2) ]}) ].

(** Detail rows whose values are JSON numbers. *)
Definition scalar_details : list (result (string * bytes)) :=
  [ Ok ("a", json "1"); Ok ("b", json "2") ].

(** A detail row whose value is cut short. *)
Definition malformed_details : list (result (string * bytes)) :=
  [ Ok ("a", json "{'n': 1") ].

(** A grid store with the given blob and detail rows and nothing else of
    note. *)
Definition with_details (blob : bytes) (details : list (result (string * bytes)))
  : DB :=
  grid_handle (grid_store blob details [] (Ok (0, 0)%Z)).

(** A container whose metadata table holds the given rows and whose tile
    index answers the zoom query with [zooms]. *)
Definition with_metadata (metadata : list scan2) (zooms : result (Z * Z)) : DB :=
  grid_handle (grid_store grid_blob [] metadata zooms).

(** The handles of the grid containers used below. *)
Definition no_details_tileset : DB := with_details grid_blob [].

Definition object_tileset : DB :=
  with_details grid_blob (map (fun r => Ok r.1) object_details).

Definition scalar_tileset : DB := with_details grid_blob scalar_details.

Definition malformed_tileset : DB := with_details grid_blob malformed_details.

(** A stored grid whose envelope holds the JSON text [null]. *)
Definition null_blob : bytes := Reference.zlib_Writer (json "null").

Definition null_grid_tileset : DB :=
  with_details null_blob [Ok ("a", json "{'n': 1}")].

(** A metadata table whose only row is [json] with the value [null], over
    a tile index spanning the zoom levels 2 to 8. *)
Definition null_json_tileset : DB :=
  with_metadata [ScanBoth "json" "null"] (Ok (2, 8)%Z).

(** An environment in which every path opens [store], last modified 1.5 s
    after the zero time. *)
Definition env_of (store : Store) : Env := {|
  sql_Open := fun _ => Ok store;
  os_Stat := fun _ => Ok 1500000000%Z;
|}.

(** The grid container with no detail rows and no metadata rows. *)
Definition plain_grid_store : Store := grid_store grid_blob [] [] (Ok (0, 0)%Z).

(** A grid container in a gzip envelope whose stored grid already has a
    data field, with one detail row. *)
Definition gzip_blob : bytes :=
  Reference.gzip_Writer (json "{'grid': ['  !'], 'data': {'old': {}}}").

Definition gzip_tileset : DB := {|
  filename := EmptyString;
  db := grid_store gzip_blob [Ok ("a", json "{'n': 1}")] [] (Ok (0, 0)%Z);
  tileformat := PNG;
  timestamp := 2000000000%Z;
  hasUTFGrid := true;
  utfgridCompression := GZIP;
  hasUTFGridData := true;
|}.

(** Detail rows of which the second does not scan. *)
Definition unscanned_tileset : DB :=
  with_details grid_blob
    [Ok ("a", json "{'n': 1}"); Fail (errors_New "sql: Scan error"); Ok ("b", json "{}")].

(** A stored grid that is not in any envelope, with one detail row. *)
Definition corrupt_tileset : DB :=
  with_details (json "{'grid': []}") [Ok ("a", json "{'n': 1}")].

(** JSON text as a Go string, written with ['] for the double quote. *)
Definition json_string (s : string) : string :=
  String.string_of_list_byte (json s).

Definition index_unavailable : result (Z * Z) :=
  Fail (errors_New "sql: Scan error on column index 0").

(** Metadata rows with both zoom bounds, over a tile index whose zoom query
    fails. *)
Definition typed_pairs : list (string * string) :=
  [ ("minzoom", "0"); ("maxzoom", "14"); ("bounds", "-180,-85,180,85");
    ("name", "world"); ("name", "World") ].

Definition typed_tileset : DB :=
  with_metadata (scanned typed_pairs) index_unavailable.

(** Metadata rows of which the second has a zoom bound that is no number. *)
Definition bad_zoom_tileset : DB :=
  with_metadata
    (scanned [("name", "world")] ++ ScanBoth "minzoom" "low" :: scanned [("maxzoom", "3")])
    (Ok (2, 8)%Z).

(** Metadata rows ending in a [json] row that holds an object. *)
Definition spliced_text : string :=
  json_string "{'attribution': 'new', 'vector_layers': []}".

Definition spliced_tileset : DB :=
  with_metadata
    (scanned [("name", "world"); ("attribution", "old")]
     ++ [ScanBoth "json" spliced_text])
    (Ok (2, 8)%Z).

(** Metadata rows with a [json] row that holds an array. *)
Definition array_json_tileset : DB :=
  with_metadata
    (scanned [("name", "world")] ++ ScanBoth "json" "[1]" :: scanned [("minzoom", "1")])
    (Ok (2, 8)%Z).

(** Metadata rows without zoom bounds, over a tile index spanning the zoom
    levels 2 to 8. *)
Definition unbounded_tileset : DB :=
  with_metadata (scanned [("name", "world")]) (Ok (2, 8)%Z).

End Sample.

(** * Properties *)

(** ** The detector *)

Lemma HasPrefix_cons_inv c s p q :
  HasPrefix (c :: s) (p :: q) = true -> c = p /\ HasPrefix s q = true.
Proof.
  simpl. intros H. apply andb_prop in H as [Hc Hq].
  split; [now apply Byte.byte_dec_bl | exact Hq].
Qed.

Lemma HasPrefix_nil_inv p q : HasPrefix [] (p :: q) = false.
Proof. reflexivity. Qed.

Lemma HasPrefix_app (p rest : bytes) : HasPrefix (p ++ rest) p = true.
Proof.
  induction p as [|b p IH]; simpl; [reflexivity|].
  rewrite IH, andb_true_r. now apply Byte.byte_dec_lb.
Qed.

Lemma HasPrefix_split (s p : bytes) :
  HasPrefix s p = true -> exists rest, s = p ++ rest.
Proof.
  revert s. induction p as [|b p IH]; intros s H.
  - now exists s.
  - destruct s as [|c s]; [discriminate|].
    apply HasPrefix_cons_inv in H as [-> H].
    destruct (IH _ H) as [rest ->]. now exists rest.
Qed.

(** The first byte of a matched pattern is the first byte of the buffer. *)
Lemma HasPrefix_head (s : bytes) p q :
  HasPrefix s (p :: q) = true -> head s = Some p.
Proof.
  destruct s as [|c s]; [discriminate|].
  intros H. apply HasPrefix_cons_inv in H as [-> _]. reflexivity.
Qed.

(** No buffer has two entries of [patterns] as prefixes: their first bytes
    differ pairwise. *)
Lemma patterns_exclusive (data : bytes) e1 e2 :
  In e1 patterns -> In e2 patterns ->
  HasPrefix data (snd e1) = true -> HasPrefix data (snd e2) = true ->
  e1 = e2.
Proof.
  intros H1 H2 P1 P2.
  unfold patterns in H1, H2. simpl in H1, H2.
  repeat (destruct H1 as [<-|H1]); try contradiction;
  repeat (destruct H2 as [<-|H2]); try contradiction;
  try reflexivity;
  apply HasPrefix_head in P1; apply HasPrefix_head in P2;
  rewrite P1 in P2; discriminate P2.
Qed.

(** What the loop returns over any list of entries: the first entry that
    matches, or the final [UNKNOWN] with its error. *)
Lemma detectTileFormat_first iter data :
  (exists e, In e iter /\ HasPrefix data (snd e) = true /\
             detectTileFormat iter data = (fst e, None)) \/
  ((forall e, In e iter -> HasPrefix data (snd e) = false) /\
   detectTileFormat iter data =
     (UNKNOWN, Some (errors_New "Could not detect tile format"))).
Proof.
  induction iter as [|[f p] rest IH]; simpl.
  - right. split; [intros e []|reflexivity].
  - destruct (HasPrefix data p) eqn:Hp.
    + left. exists (f, p). simpl. auto.
    + destruct IH as [(e & Hin & He & Hr)|[Hnone Hr]].
      * left. exists e. auto.
      * right. split; [|exact Hr].
        intros e [<-|Hin]; [exact Hp|now apply Hnone].
Qed.

Lemma detectTileFormat_match iter data f p :
  range_order iter -> In (f, p) patterns -> HasPrefix data p = true ->
  detectTileFormat iter data = (f, None).
Proof.
  intros Hperm Hin Hp.
  destruct (detectTileFormat_first iter data)
    as [(e & Hie & He & Hr)|[Hnone _]].
  - assert (e = (f, p)) as ->.
    { apply (patterns_exclusive data); auto.
      eapply Permutation_in; eauto. }
    exact Hr.
  - assert (In (f, p) iter) as Hi
      by (eapply Permutation_in; [symmetry; exact Hperm|exact Hin]).
    apply Hnone in Hi. simpl in Hi. congruence.
Qed.

Lemma detectTileFormat_nomatch iter data :
  range_order iter ->
  (forall e, In e patterns -> HasPrefix data (snd e) = false) ->
  detectTileFormat iter data =
    (UNKNOWN, Some (errors_New "Could not detect tile format")).
Proof.
  intros Hperm Hnone.
  destruct (detectTileFormat_first iter data)
    as [(e & Hie & He & _)|[_ Hr]]; [|exact Hr].
  rewrite Hnone in He; [discriminate|].
  eapply Permutation_in; eauto.
Qed.

(** The detector never reports [UNKNOWN] without an error, nor [PBF] at all. *)
Lemma detectTileFormat_tags iter data f :
  range_order iter -> detectTileFormat iter data = (f, None) ->
  exists p, In (f, p) patterns /\ HasPrefix data p = true.
Proof.
  intros Hperm Hr.
  destruct (detectTileFormat_first iter data)
    as [([f' p] & Hie & He & Hr')|[_ Hr']]; [|congruence].
  cbn [fst snd] in *. exists p. split; [|exact He].
  assert (f = f') as -> by congruence.
  eapply Permutation_in; eauto.
Qed.

(** C4: a buffer that begins with one of the five magic prefixes is detected
    as the format of that prefix, with no error, whatever the order in which
    the pattern map is ranged over; a buffer that begins with none of them is
    detected as [UNKNOWN], with an error. *)
Theorem C4_detect_by_magic_prefix iter data :
  range_order iter ->
  (HasPrefix data [x1f; x8b] = true ->
     detectTileFormat iter data = (GZIP, None)) /\
  (HasPrefix data [x78; x9c] = true ->
     detectTileFormat iter data = (ZLIB, None)) /\
  (HasPrefix data [x89; x50; x4e; x47; x0d; x0a; x1a; x0a] = true ->
     detectTileFormat iter data = (PNG, None)) /\
  (HasPrefix data [xff; xd8; xff] = true ->
     detectTileFormat iter data = (JPG, None)) /\
  (HasPrefix data [x52; x49; x46; x46; xc0; x00; x00; x00;
                   x57; x45; x42; x50; x56; x50] = true ->
     detectTileFormat iter data = (WEBP, None)) /\
  (HasPrefix data [x1f; x8b] = false ->
   HasPrefix data [x78; x9c] = false ->
   HasPrefix data [x89; x50; x4e; x47; x0d; x0a; x1a; x0a] = false ->
   HasPrefix data [xff; xd8; xff] = false ->
   HasPrefix data [x52; x49; x46; x46; xc0; x00; x00; x00;
                   x57; x45; x42; x50; x56; x50] = false ->
     detectTileFormat iter data =
       (UNKNOWN, Some (errors_New "Could not detect tile format"))).
Proof.
  intros Hperm.
  repeat apply conj;
    try (intros Hp; eapply detectTileFormat_match;
         [exact Hperm | simpl; tauto | exact Hp]).
  intros H1 H2 H3 H4 H5.
  apply detectTileFormat_nomatch; [exact Hperm|].
  intros e He. unfold patterns in He. simpl in He.
  repeat (destruct He as [<-|He]); try contradiction; assumption.
Qed.

Lemma C4_detect_by_magic_prefix_witness :
  range_order (rev patterns) /\
  detectTileFormat (rev patterns) [xff; xd8; xff; xe0; x00; x10] = (JPG, None) /\
  detectTileFormat (rev patterns) [x47; x49; x46; x38] =
    (UNKNOWN, Some (errors_New "Could not detect tile format")).
Proof.
  assert (range_order (rev patterns)) as Hperm
    by (unfold range_order; symmetry; apply Permutation_rev).
  split; [exact Hperm|].
  split.
  - apply (C4_detect_by_magic_prefix (rev patterns) [xff; xd8; xff; xe0; x00; x10] Hperm).
    reflexivity.
  - apply (C4_detect_by_magic_prefix (rev patterns) [x47; x49; x46; x38] Hperm);
      reflexivity.
Defined.

(** C8: the five patterns are pairwise mutually exclusive (no buffer has two
    of them as prefixes), so two evaluations of the detector on the same
    buffer return the same format and error, whatever the two orders in
    which the pattern map is ranged over. *)
Theorem C8_detect_two_runs_agree data iter1 iter2 :
  range_order iter1 -> range_order iter2 ->
  (forall f1 p1 f2 p2,
      In (f1, p1) patterns -> In (f2, p2) patterns ->
      HasPrefix data p1 = true -> HasPrefix data p2 = true ->
      (f1, p1) = (f2, p2)) /\
  detectTileFormat iter1 data = detectTileFormat iter2 data.
Proof.
  intros H1 H2. split.
  - intros f1 p1 f2 p2 Hi1 Hi2 Hp1 Hp2.
    exact (patterns_exclusive data (f1, p1) (f2, p2) Hi1 Hi2 Hp1 Hp2).
  - destruct (detectTileFormat_first iter1 data)
      as [([f p] & Hin & Hp & ->)|[Hnone ->]].
    + symmetry. cbn [fst snd] in *.
      apply detectTileFormat_match with (p := p); [exact H2| |exact Hp].
      eapply Permutation_in; [exact H1|exact Hin].
    + symmetry. apply detectTileFormat_nomatch; [exact H2|].
      intros e He. apply Hnone.
      eapply Permutation_in; [symmetry; exact H1|exact He].
Qed.

Lemma C8_detect_two_runs_agree_witness :
  range_order patterns /\ range_order (rev patterns) /\
  detectTileFormat patterns [x78; x9c; x01] =
  detectTileFormat (rev patterns) [x78; x9c; x01].
Proof.
  assert (range_order (rev patterns)) as Hrev
    by (unfold range_order; symmetry; apply Permutation_rev).
  assert (range_order patterns) as Hid by apply Permutation_refl.
  split; [exact Hid|]. split; [exact Hrev|].
  exact (proj2 (C8_detect_two_runs_agree [x78; x9c; x01] _ _ Hid Hrev)).
Defined.

(** ** Construction of the handle *)

(** Unfold one layer of the computation monad. *)
Ltac run :=
  cbn [mbind mret M_bind M_ret query panic ask answer issued returned
       fst snd app negb] in *.

(** Case analysis on the scrutinee of the first [match] in a hypothesis. *)
Ltac split_match H :=
  match type of H with
  | context [match ?x with _ => _ end] =>
      lazymatch x with
      | context [match _ with _ => _ end] => fail
      | _ => destruct x eqn:?
      end
  end.

(** What a successful [NewDB] has seen and what it has recorded. *)
Lemma NewDB_accepts env path iter_tile iter_grid t h :
  NewDB env path iter_tile iter_grid = (t, Done (Ok h)) ->
  exists conn modTime data detected,
    sql_Open env path = Ok conn /\
    os_Stat env path = Ok modTime /\
    sample_tile conn = Ok data /\
    detectTileFormat iter_tile data = (detected, None) /\
    filename h = EmptyString /\
    db h = conn /\
    tileformat h = (if decide (detected = GZIP) then PBF else detected) /\
    timestamp h = Round modTime Second.
Proof.
  unfold NewDB. intros H.
  destruct (sql_Open env path) as [conn|] eqn:Hopen; [|discriminate].
  destruct (os_Stat env path) as [modTime|] eqn:Hstat; [|discriminate].
  run.
  destruct (sample_tile conn) as [data|] eqn:Hsample; [|discriminate].
  destruct (detectTileFormat iter_tile data) as [detected [err|]] eqn:Hdet;
    [discriminate|].
  exists conn, modTime, data, detected.
  repeat (split; [first [assumption|reflexivity]|]).
  run.
  repeat (split_match H; run; try discriminate);
    injection H as _ <-; repeat split; reflexivity.
Qed.

(** C3: when the sample tile of an accepted container begins with the gzip
    magic prefix, the handle's tile format is PBF; and no handle that [NewDB]
    returns has GZIP as its tile format. *)
Theorem C3_gzip_sample_is_pbf env path iter_tile iter_grid t h :
  range_order iter_tile ->
  NewDB env path iter_tile iter_grid = (t, Done (Ok h)) ->
  (forall data, sample_tile (db h) = Ok data ->
                HasPrefix data [x1f; x8b] = true -> tileformat h = PBF) /\
  tileformat h <> GZIP.
Proof.
  intros Hperm Hnew.
  destruct (NewDB_accepts _ _ _ _ _ _ Hnew)
    as (conn & modTime & data & detected & _ & _ & Hsample & Hdet & _ & Hdb & Htf & _).
  split.
  - intros data' Hsample' Hprefix.
    rewrite Hdb, Hsample in Hsample'. injection Hsample' as <-.
    assert (detectTileFormat iter_tile data = (GZIP, None)) as Hgz.
    { eapply detectTileFormat_match; [exact Hperm|simpl; tauto|exact Hprefix]. }
    rewrite Hgz in Hdet. injection Hdet as <-.
    rewrite Htf. reflexivity.
  - rewrite Htf. destruct (decide (detected = GZIP)); congruence.
Qed.

Lemma C3_gzip_sample_is_pbf_witness :
  range_order (rev patterns) /\
  (exists t h,
      NewDB Sample.vector_env "tiles/world.mbtiles" (rev patterns) patterns
        = (t, Done (Ok h)) /\
      tileformat h = PBF /\ tileformat h <> GZIP).
Proof.
  assert (range_order (rev patterns)) as Hperm
    by (unfold range_order; symmetry; apply Permutation_rev).
  split; [exact Hperm|].
  eexists _, _. split; [reflexivity|].
  match goal with
  | |- tileformat ?h = _ /\ _ =>
      pose proof (C3_gzip_sample_is_pbf Sample.vector_env "tiles/world.mbtiles"
                    (rev patterns) patterns _ h Hperm eq_refl) as [Hpbf Hne]
  end.
  split; [|exact Hne].
  eapply Hpbf; reflexivity.
Defined.

(** The first element of [strings.Split(s, sep)] is [s] up to its first
    separator. *)
Lemma strings_Split_head s sep :
  exists x xs rest,
    strings_Split s sep = x :: xs /\
    s = x +:+ rest /\
    (rest = EmptyString \/ exists r, rest = String sep r) /\
    (forall c, In c (String.list_ascii_of_string x) -> c <> sep).
Proof.
  induction s as [|c s IH]; simpl.
  - exists EmptyString, [], EmptyString.
    split; [reflexivity|]. split; [reflexivity|]. split; [now left|].
    intros c [].
  - destruct (Ascii.eqb c sep) eqn:Hc.
    + apply Ascii.eqb_eq in Hc as ->.
      exists EmptyString, (strings_Split s sep), (String sep s).
      split; [reflexivity|]. split; [reflexivity|].
      split; [right; now exists s|]. intros c [].
    + destruct IH as (x & xs & rest & -> & -> & Hrest & Hno).
      exists (String c x), xs, rest.
      split; [reflexivity|]. split; [reflexivity|]. split; [exact Hrest|].
      intros c' [<-|Hin]; [|now apply Hno].
      intros ->. rewrite Ascii.eqb_refl in Hc. discriminate.
Qed.

(** C9 (as amended): for every path that [NewDB] accepts, the identifier
    derived at the start of construction is the last element of the path up
    to its first dot, and the handle does not retain it: the handle's file
    name attribute is empty, and a path that opens the same store with the
    same modification time yields the same result. *)
Theorem C9_identifier_not_retained env path iter_tile iter_grid t h :
  NewDB env path iter_tile iter_grid = (t, Done (Ok h)) ->
  (exists rest,
      snd (filepath_Split path) = NewDB_id path +:+ rest /\
      (rest = EmptyString \/ exists r, rest = String "." r) /\
      (forall c, In c (String.list_ascii_of_string (NewDB_id path)) -> c <> "."%char)) /\
  filename h = EmptyString /\
  (forall path',
      sql_Open env path' = sql_Open env path ->
      os_Stat env path' = os_Stat env path ->
      NewDB env path' iter_tile iter_grid = (t, Done (Ok h))).
Proof.
  intros Hnew.
  destruct (NewDB_accepts _ _ _ _ _ _ Hnew)
    as (conn & modTime & data & detected & Hopen & Hstat & _ & _ & Hname & _).
  split; [|split; [exact Hname|]].
  - unfold NewDB_id. destruct (filepath_Split path) as [dir file]. simpl.
    destruct (strings_Split_head file ".") as (x & xs & rest & -> & -> & Hrest & Hno).
    exists rest. auto.
  - intros path' Hopen' Hstat'. rewrite <- Hnew. unfold NewDB.
    rewrite Hopen', Hstat', Hopen, Hstat. reflexivity.
Qed.

Lemma C9_identifier_not_retained_witness :
  exists t h,
    NewDB Sample.vector_env "tiles/world.cities.mbtiles" patterns patterns
      = (t, Done (Ok h)) /\
    NewDB_id "tiles/world.cities.mbtiles" = "world" /\
    filename h = EmptyString /\
    NewDB Sample.vector_env "other/roads.mbtiles" patterns patterns
      = (t, Done (Ok h)).
Proof.
  eexists _, _. split; [reflexivity|].
  split; [reflexivity|].
  match goal with
  | |- filename ?h = _ /\ _ =>
      pose proof (C9_identifier_not_retained Sample.vector_env
                    "tiles/world.cities.mbtiles" patterns patterns _ h eq_refl)
        as (_ & Hname & Hsame)
  end.
  split; [exact Hname|].
  apply Hsame; reflexivity.
Defined.

(** C9 (as stated) fails: no attribute of the handle holds the base name
    without its extension, since two accepted paths with different
    identifiers construct the same handle; and the identifier that
    construction derives stops at the first dot, not at the extension. *)
Lemma C9_counterexample :
  (~ exists attribute : DB -> string,
       forall path t h,
         NewDB Sample.vector_env path patterns patterns = (t, Done (Ok h)) ->
         attribute h = spec_identifier path) /\
  spec_identifier "tiles/world.cities.mbtiles" = "world.cities" /\
  NewDB_id "tiles/world.cities.mbtiles" = "world".
Proof.
  split; [|split; reflexivity].
  intros [attribute Hattr].
  pose proof (Hattr "tiles/world.mbtiles" _ _ eq_refl) as H1.
  pose proof (Hattr "tiles/roads.mbtiles" _ _ eq_refl) as H2.
  rewrite H1 in H2. vm_compute in H2. discriminate H2.
Qed.

(** ** Reading a grid *)

Lemma Sample_vector_handle_constructed path :
  NewDB Sample.vector_env path patterns patterns =
  ([SelectSampleTile; CountView "grids"], Done (Ok Sample.vector_handle)).
Proof. reflexivity. Qed.

Lemma Sample_grid_handle_constructed details metadata zooms :
  let store := Sample.grid_store Sample.grid_blob details metadata zooms in
  returned (NewDB {| sql_Open := fun _ => Ok store;
                     os_Stat := fun _ => Ok 1500000000%Z |}
                  "grids.mbtiles" patterns (rev patterns))
  = Done (Ok (Sample.grid_handle store)).
Proof. reflexivity. Qed.

Section ReadGridFacts.

Variables zlib gzip : Envelope.
Variables json_Unmarshal json_Decode : bytes -> result value.
Variable json_Encode : value -> result bytes.

Local Abbreviation readGrid :=
  (ReadGrid zlib gzip json_Unmarshal json_Decode json_Encode).

(** Over rows that all scan, the loop never fails, whatever the values
    hold: it inserts one entry per row. *)
Lemma grid_data_loop_scanned (kvs : list (string * bytes)) acc :
  grid_data_loop json_Unmarshal (map Ok kvs) acc =
  Ok (fold_left (fun m kv => <[kv.1 := row_value json_Unmarshal kv.2]> m) kvs acc).
Proof.
  revert acc. induction kvs as [|[k v] kvs IH]; intros acc.
  - reflexivity.
  - cbn [map fold_left grid_data_loop fst snd]. rewrite <- IH.
    unfold row_value.
    destruct (Unmarshal_map json_Unmarshal (fun v => v) v (Some ∅)) as [m e].
    reflexivity.
Qed.

Lemma fold_insert_nonempty {V} (f : string * bytes -> V)
    (kvs : list (string * bytes)) (acc : gmap string V) :
  acc ≠ ∅ \/ kvs ≠ [] ->
  fold_left (fun m kv => <[kv.1 := f kv]> m) kvs acc ≠ ∅.
Proof.
  revert acc. induction kvs as [|kv kvs IH]; intros acc [H|H]; simpl;
    try congruence.
  - apply IH. left. apply insert_non_empty.
  - apply IH. left. apply insert_non_empty.
Qed.

Lemma row_value_object raw fields :
  json_Unmarshal raw = Ok (Object fields) ->
  row_value json_Unmarshal raw = Object fields.
Proof.
  intros H. unfold row_value, Unmarshal_map, store_map. rewrite H. simpl.
  rewrite map_fmap_id. f_equal. apply (right_id_L ∅ (∪)).
Qed.

(** C6: on a handle without grid support, [ReadGrid] returns the capability
    error for every coordinate, has issued no query to the store, and leaves
    the caller's slice as it was. *)
Theorem C6_no_grid_support tileset z x y data :
  hasUTFGrid tileset = false ->
  issued (readGrid tileset z x y data) = [] /\
  returned (readGrid tileset z x y data) =
  Done (data, Some (errors_New "Tileset does not contain UTFgrids")).
Proof. intros H. unfold ReadGrid. rewrite H. split; reflexivity. Qed.

(** C5: on a handle with grid support, when the coordinate has a stored grid
    blob and either the handle has no per-key detail view or the detail
    query answers with zero rows, [ReadGrid] returns exactly the stored
    bytes and no error (whatever the blob holds, a JSON object with no data
    field included). *)
Theorem C5_blob_returned_unmodified tileset z x y data blob :
  hasUTFGrid tileset = true ->
  grid_at (db tileset) z x y = Ok blob ->
  hasUTFGridData tileset = false \/ grid_data_at (db tileset) z x y = Ok [] ->
  returned (readGrid tileset z x y data) = Done (blob, None).
Proof.
  intros Hgrid Hblob Hnone. unfold ReadGrid. rewrite Hgrid. run.
  rewrite Hblob.
  destruct (hasUTFGridData tileset) eqn:Hdata.
  - destruct Hnone as [Hnone|Hnone]; [discriminate|].
    run. rewrite Hnone. reflexivity.
  - reflexivity.
Qed.

(** The run of [ReadGrid] up to the decoded grid, on a handle with both
    views and a coordinate whose detail rows all scan. *)
Lemma ReadGrid_merge_path tileset z x y data blob kvs stream :
  hasUTFGrid tileset = true ->
  hasUTFGridData tileset = true ->
  grid_at (db tileset) z x y = Ok blob ->
  grid_data_at (db tileset) z x y = Ok (map Ok kvs) ->
  kvs ≠ [] ->
  NewReader (envelope_of zlib gzip tileset) blob = Ok stream ->
  returned (readGrid tileset z x y data) =
  returned (
    utfjson ← assign (Decode_map json_Decode stream None).1 "data"
                (Object (fold_left (fun m kv => <[kv.1 := row_value json_Unmarshal kv.2]> m)
                                   kvs ∅));
    match json_Encode (interface_of_map utfjson) with
    | Fail err => mret (blob, Some err)
    | Ok encoded => mret (Writer (envelope_of zlib gzip tileset) encoded, None)
    end).
Proof.
  intros Hgrid Hdata Hblob Hrows Hne Hread.
  unfold ReadGrid. rewrite Hgrid. run. rewrite Hblob, Hdata. run.
  rewrite Hrows, grid_data_loop_scanned.
  destruct (decide (size _ = 0)) as [Hsize|_].
  { apply map_size_empty_iff in Hsize.
    apply fold_insert_nonempty in Hsize; [contradiction|now right]. }
  cbv zeta. rewrite Hread.
  destruct (Decode_map json_Decode stream None) as [[fields|] e]; run;
    [|reflexivity].
  unfold assign; run;
  match goal with |- context [json_Encode ?v] => destruct (json_Encode v) end;
    reflexivity.
Qed.

(** C10: on a handle with per-key detail support, at a coordinate with at
    least one detail row, when the envelope of the stored grid is accepted
    but what it holds does not decode to a JSON object, [ReadGrid] returns
    neither bytes nor an error: it panics on the assignment of the data
    field into the nil map. *)
Theorem C10_nil_grid_map_panics tileset z x y data blob kvs stream :
  hasUTFGrid tileset = true ->
  hasUTFGridData tileset = true ->
  grid_at (db tileset) z x y = Ok blob ->
  grid_data_at (db tileset) z x y = Ok (map Ok kvs) ->
  kvs ≠ [] ->
  NewReader (envelope_of zlib gzip tileset) blob = Ok stream ->
  (forall fields, json_Decode stream ≠ Ok (Object fields)) ->
  returned (readGrid tileset z x y data) =
  Panic "assignment to entry in nil map".
Proof.
  intros Hgrid Hdata Hblob Hrows Hne Hread Hnot.
  rewrite (ReadGrid_merge_path _ _ _ _ _ _ _ _ Hgrid Hdata Hblob Hrows Hne Hread).
  unfold Decode_map, store_map.
  destruct (json_Decode stream) as [[]|]; try reflexivity.
  exfalso. eapply Hnot. reflexivity.
Qed.

Lemma keydata_of_rows (rows : list (string * bytes * gmap string value))
    (acc : gmap string value) :
  Forall (fun r => json_Unmarshal r.1.2 = Ok (Object r.2)) rows ->
  fold_left (fun m kv => <[kv.1 := row_value json_Unmarshal kv.2]> m) (map fst rows) acc =
  fold_left (fun m r => <[r.1.1 := Object r.2]> m) rows acc.
Proof.
  intros H. revert acc. induction H as [|[[k raw] o] rows Hr _ IH]; intros acc.
  - reflexivity.
  - cbn [map fold_left fst snd] in *. rewrite (row_value_object _ _ Hr). apply IH.
Qed.

(** C1 (as amended): for a stored grid in a zlib envelope that decodes to
    a JSON object [grid], and detail rows at the same coordinate whose values
    are JSON objects, [ReadGrid] returns the zlib envelope of the JSON
    encoding of [grid] with its data field set to the mapping from each row's
    key name to its decoded object. *)
Theorem C1_detail_objects_merged tileset z x y data blob stream grid
    (rows : list (string * bytes * gmap string value)) encoded :
  hasUTFGrid tileset = true ->
  hasUTFGridData tileset = true ->
  utfgridCompression tileset = ZLIB ->
  grid_at (db tileset) z x y = Ok blob ->
  grid_data_at (db tileset) z x y = Ok (map (fun r => Ok r.1) rows) ->
  rows ≠ [] ->
  Forall (fun r => json_Unmarshal r.1.2 = Ok (Object r.2)) rows ->
  NewReader zlib blob = Ok stream ->
  json_Decode stream = Ok (Object grid) ->
  json_Encode (Object (<["data" := Object (keydata_of rows)]> grid)) = Ok encoded ->
  returned (readGrid tileset z x y data) = Done (Writer zlib encoded, None).
Proof.
  intros Hgrid Hdata Hz Hblob Hrows Hne Hobjs Hread Hdec Henc.
  assert (envelope_of zlib gzip tileset = zlib) as Henv
    by (unfold envelope_of; rewrite Hz; reflexivity).
  rewrite <- (map_map fst Ok) in Hrows.
  rewrite (ReadGrid_merge_path _ _ _ _ _ _ _ stream Hgrid Hdata Hblob Hrows);
    [| destruct rows; [congruence|discriminate] | now rewrite Henv].
  rewrite Henv, (keydata_of_rows _ _ Hobjs).
  unfold Decode_map, store_map. rewrite Hdec.
  cbn [fst default]. rewrite map_fmap_id, (right_id_L ∅ (∪)).
  unfold assign; run. cbn [interface_of_map].
  fold (keydata_of rows). rewrite Henc. reflexivity.
Qed.

End ReadGridFacts.

Lemma C6_no_grid_support_witness :
  hasUTFGrid Sample.vector_handle = false /\
  issued (Sample.ReadGrid Sample.vector_handle 3 1 2 [x00; x01]) = [] /\
  returned (Sample.ReadGrid Sample.vector_handle 3 1 2 [x00; x01]) =
  Done ([x00; x01], Some (errors_New "Tileset does not contain UTFgrids")).
Proof.
  split; [reflexivity|].
  apply (C6_no_grid_support Reference.zlib Reference.gzip
           Reference.json_Unmarshal Reference.json_Decode Reference.json_Encode
           Sample.vector_handle 3 1 2 [x00; x01]).
  reflexivity.
Defined.

Lemma C5_blob_returned_unmodified_witness :
  hasUTFGrid Sample.no_details_tileset = true /\
  grid_at (db Sample.no_details_tileset) 0 0 0 = Ok Sample.grid_blob /\
  grid_data_at (db Sample.no_details_tileset) 0 0 0 = Ok [] /\
  returned (Sample.ReadGrid Sample.no_details_tileset 0 0 0 [])
    = Done (Sample.grid_blob, None).
Proof.
  split; [reflexivity|]. split; [reflexivity|]. split; [reflexivity|].
  apply (C5_blob_returned_unmodified Reference.zlib Reference.gzip
           Reference.json_Unmarshal Reference.json_Decode Reference.json_Encode
           Sample.no_details_tileset 0 0 0 [] Sample.grid_blob);
    [reflexivity | reflexivity | right; reflexivity].
Defined.

Lemma C10_nil_grid_map_panics_witness :
  NewReader Reference.zlib Sample.null_blob = Ok (Sample.json "null") /\
  Reference.json_Decode (Sample.json "null") = Ok Null /\
  returned (Sample.ReadGrid Sample.null_grid_tileset 0 0 0 []) =
  Panic "assignment to entry in nil map".
Proof.
  split; [reflexivity|]. split; [reflexivity|].
  apply (C10_nil_grid_map_panics Reference.zlib Reference.gzip
           Reference.json_Unmarshal Reference.json_Decode Reference.json_Encode
           Sample.null_grid_tileset 0 0 0 [] Sample.null_blob
           [("a", Sample.json "{'n': 1}")] (Sample.json "null"));
    try reflexivity.
  - discriminate.
  - intros fields H. vm_compute in H. discriminate H.
Defined.

Lemma C1_detail_objects_merged_witness :
  exists out,
    returned (Sample.ReadGrid Sample.object_tileset 0 0 0 []) = Done (out, None) /\
    Sample.decompressed_json Reference.zlib out
      (Sample.json
         "{'grid': ['  !', ' !!'], 'data': {'a': {'n': 1}, 'b': {'n': 2}}}").
Proof.
  eexists. split.
  - eapply (C1_detail_objects_merged Reference.zlib Reference.gzip
              Reference.json_Unmarshal Reference.json_Decode Reference.json_Encode
              Sample.object_tileset 0 0 0 [] Sample.grid_blob _ _
              Sample.object_details).
    + reflexivity.
    + reflexivity.
    + reflexivity.
    + reflexivity.
    + reflexivity.
    + discriminate.
    + repeat constructor.
    + vm_compute. reflexivity.
    + vm_compute. reflexivity.
    + vm_compute. reflexivity.
  - eexists _, _. split; [vm_compute; reflexivity|].
    split; vm_compute; reflexivity.
Defined.

(** C1 (as stated) fails: with the detail rows ("a", 1) and ("b", 2) the
    data field of the returned grid holds an empty object under each key,
    not the numbers. *)
Lemma C1_counterexample :
  exists out,
    returned (Sample.ReadGrid Sample.scalar_tileset 0 0 0 []) = Done (out, None) /\
    Sample.decompressed_json Reference.zlib out
      (Sample.json
         "{'grid': ['  !', ' !!'], 'data': {'a': {}, 'b': {}}}") /\
    ~ Sample.decompressed_json Reference.zlib out
      (Sample.json
         "{'grid': ['  !', ' !!'], 'data': {'a': 1, 'b': 2}}").
Proof.
  eexists. split; [vm_compute; reflexivity|]. split.
  - eexists _, _. split; [vm_compute; reflexivity|].
    split; vm_compute; reflexivity.
  - intros (stream & v & Hread & Hdec & Hexp).
    vm_compute in Hread. injection Hread as <-.
    vm_compute in Hdec. injection Hdec as <-.
    vm_compute in Hexp. discriminate Hexp.
Qed.

(** C2 (evaluation at the failing input): a detail row whose value is not
    well-formed JSON does not fail the call; [ReadGrid] returns a grid, with
    no error, whose data field holds an empty object under that row's key. *)
Lemma C2_malformed_detail_row_accepted :
  Reference.json_Unmarshal (Sample.json "{'n': 1") =
    Fail Reference.syntax_error /\
  exists out,
    returned (Sample.ReadGrid Sample.malformed_tileset 0 0 0 [])
      = Done (out, None) /\
    Sample.decompressed_json Reference.zlib out
      (Sample.json
         "{'grid': ['  !', ' !!'], 'data': {'a': {}}}").
Proof.
  split; [vm_compute; reflexivity|].
  eexists. split; [vm_compute; reflexivity|].
  eexists _, _. split; [vm_compute; reflexivity|].
  split; vm_compute; reflexivity.
Qed.

(** ** Reading the metadata *)

Section ReadMetadataFacts.

Variable json_Unmarshal : bytes -> result value.
Variable stringToFloats : string -> list float64 * option error.

Local Abbreviation readMetadata := (ReadMetadata json_Unmarshal stringToFloats).
Local Abbreviation rows_loop := (metadata_loop json_Unmarshal stringToFloats).

(** Row processing issues no query of its own. *)
Lemma metadata_case_silent key value metadata :
  issued (metadata_case json_Unmarshal stringToFloats key value metadata) = [].
Proof.
  unfold metadata_case, assign.
  repeat match goal with
         | |- context [match ?x with _ => _ end] => destruct x
         | |- context [let '(_, _) := ?x in _] => destruct x
         end; reflexivity.
Qed.

Lemma metadata_loop_silent rows key value metadata :
  issued (rows_loop rows key value metadata) = [].
Proof.
  revert key value metadata.
  induction rows as [|row rows IH]; intros key value metadata; [reflexivity|].
  cbn [metadata_loop].
  destruct (scan_into row key value) as [key' value'].
  pose proof (metadata_case_silent key' value' metadata) as Hcase.
  destruct (metadata_case _ _ key' value' metadata) as [t [[m|err]|msg]];
    cbn [issued fst] in Hcase; subst t; run; try reflexivity.
  specialize (IH key' value' m).
  destruct (rows_loop rows key' value' m) as [t' r].
  cbn [issued fst] in IH. subst t'. reflexivity.
Qed.

(** [ReadMetadata] once the rows have been processed into [metadata]: the
    mapping is returned as it is when both zoom bounds are present, and
    otherwise the tile index is asked; a failing answer returns the mapping
    as it is, with no error, and an answer sets both fields, which panics
    when the mapping is nil. *)
Lemma ReadMetadata_zoom_fallback tileset rows metadata :
  metadata_rows (db tileset) = Ok rows ->
  returned (rows_loop rows EmptyString EmptyString (Some ∅)) = Done (Ok metadata) ->
  let both := has_key metadata "minzoom" && has_key metadata "maxzoom" in
  (both = true ->
     readMetadata tileset = ([SelectMetadata], Done (metadata, None))) /\
  (both = false -> forall err,
     zoom_range (db tileset) = Fail err ->
     readMetadata tileset =
       ([SelectMetadata; SelectZoomRange], Done (metadata, None))) /\
  (both = false -> forall minZoom maxZoom m,
     zoom_range (db tileset) = Ok (minZoom, maxZoom) ->
     metadata = Some m ->
     readMetadata tileset =
       ([SelectMetadata; SelectZoomRange],
        Done (Some (<["maxzoom" := MInt maxZoom]>
                      (<["minzoom" := MInt minZoom]> m)), None))) /\
  (both = false -> forall minZoom maxZoom,
     zoom_range (db tileset) = Ok (minZoom, maxZoom) ->
     metadata = None ->
     readMetadata tileset =
       ([SelectMetadata; SelectZoomRange],
        Panic "assignment to entry in nil map")).
Proof.
  intros Hrows Hloop both.
  pose proof (metadata_loop_silent rows EmptyString EmptyString (Some ∅)) as Hsilent.
  unfold ReadMetadata. run. rewrite Hrows.
  destruct (rows_loop rows EmptyString EmptyString (Some ∅)) as [t r].
  cbn [issued returned fst snd] in Hsilent, Hloop. subst t r. run.
  unfold infer_zoom. fold both.
  repeat apply conj.
  - intros ->. reflexivity.
  - intros -> err Hz. run. rewrite Hz. reflexivity.
  - intros -> minZoom maxZoom m Hz ->. run. rewrite Hz. reflexivity.
  - intros -> minZoom maxZoom Hz ->. run. rewrite Hz. reflexivity.
Qed.

End ReadMetadataFacts.

(** The inference example of the specification: rows without zoom bounds
    over a tile index spanning the zoom levels 2 to 8. *)
Lemma ReadMetadata_infers_zoom_2_8 :
  Sample.ReadMetadata
    (Sample.with_metadata [ScanBoth "name" "world"; ScanBoth "bounds" "-180,-85,180,85"]
                          (Ok (2, 8)%Z)) =
  ([SelectMetadata; SelectZoomRange],
   Done (Some (<["maxzoom" := MInt 8]>
                 (<["minzoom" := MInt 2]>
                    (<["bounds" := MFloats (Reference.stringToFloats "-180,-85,180,85").1]>
                       {["name" := MString "world"]}))),
         None)).
Proof.
  vm_compute. reflexivity.
Qed.

(** C7 (evaluation at the failing input): a metadata table whose only row
    is [json] with the value [null] passes row processing with neither zoom
    bound present; the tile index answers the fallback query with the zoom
    levels 2 and 8, and [ReadMetadata] then panics on the assignment of
    [minzoom] instead of setting both fields. *)
Lemma C7_null_json_metadata_panics :
  zoom_range (db Sample.null_json_tileset) = Ok (2, 8)%Z /\
  Reference.json_Unmarshal (Sample.text "null") = Ok Null /\
  returned (metadata_loop Reference.json_Unmarshal Reference.stringToFloats
              [ScanBoth "json" "null"] EmptyString EmptyString (Some ∅))
    = Done (Ok None) /\
  Sample.ReadMetadata Sample.null_json_tileset =
    ([SelectMetadata; SelectZoomRange], Panic "assignment to entry in nil map").
Proof.
  repeat split; vm_compute; reflexivity.
Qed.

(** * Further properties *)

(** ** The detector *)

Lemma patterns_tags f p :
  In (f, p) patterns -> f <> UNKNOWN /\ f <> PBF /\ (2 <= length p <= 14)%nat.
Proof.
  unfold patterns. simpl. intros H.
  repeat (destruct H as [H|H];
          [injection H as <- <-; simpl;
           split; [discriminate|split; [discriminate|lia]] |]).
  contradiction.
Qed.

(** The detector reports an error exactly when it reports [UNKNOWN]; a
    format it reports without error is the tag of a pattern that the buffer
    begins with, and is never [PBF]. *)
Theorem detect_error_iff_unknown iter data f e :
  range_order iter ->
  detectTileFormat iter data = (f, e) ->
  (e = None <-> f <> UNKNOWN) /\
  f <> PBF /\
  (e = None -> exists p, In (f, p) patterns /\ HasPrefix data p = true).
Proof.
  intros Hperm Hdet.
  destruct (detectTileFormat_first iter data)
    as [([f' p] & Hin & Hp & Hr)|[_ Hr]]; rewrite Hr in Hdet;
    injection Hdet as <- <-.
  - cbn [fst snd] in *.
    assert (In (f', p) patterns) as Hpat by (eapply Permutation_in; eauto).
    destruct (patterns_tags _ _ Hpat) as (Hu & Hb & _).
    repeat split; auto. intros _. exists p. auto.
  - repeat split; try discriminate. intros H. congruence.
Qed.

Lemma detect_error_iff_unknown_witness :
  range_order (rev patterns) /\
  detectTileFormat (rev patterns) [x89; x50; x4e; x47; x0d; x0a; x1a; x0a; x00]
    = (PNG, None) /\
  PNG <> UNKNOWN /\ PNG <> PBF.
Proof.
  assert (range_order (rev patterns)) as Hperm
    by (unfold range_order; symmetry; apply Permutation_rev).
  split; [exact Hperm|]. split; [reflexivity|].
  destruct (detect_error_iff_unknown (rev patterns)
              [x89; x50; x4e; x47; x0d; x0a; x1a; x0a; x00] PNG None Hperm eq_refl)
    as (Hiff & Hpbf & _).
  split; [apply Hiff; reflexivity | exact Hpbf].
Defined.

Lemma HasPrefix_take (n : nat) (p data : bytes) :
  (length p <= n)%nat -> HasPrefix (take n data) p = HasPrefix data p.
Proof.
  revert n data. induction p as [|b p IH]; intros n data Hlen; [reflexivity|].
  destruct n as [|n]; [simpl in Hlen; lia|].
  destruct data as [|c data]; [reflexivity|].
  cbn [take HasPrefix]. simpl in Hlen.
  rewrite IH by lia. reflexivity.
Qed.

(** The detector inspects the first fourteen bytes only: two buffers that
    agree on them are detected alike. *)
Theorem detect_reads_first_14_bytes iter data1 data2 :
  range_order iter ->
  take 14 data1 = take 14 data2 ->
  detectTileFormat iter data1 = detectTileFormat iter data2.
Proof.
  intros Hperm Heq.
  assert (Forall (fun e => In e patterns) iter) as Hall.
  { apply List.Forall_forall. intros e He. eapply Permutation_in; eauto. }
  clear Hperm. induction Hall as [|[f p] rest Hin _ IH]; [reflexivity|].
  cbn [detectTileFormat].
  destruct (patterns_tags _ _ Hin) as (_ & _ & _ & Hlen).
  rewrite <- (HasPrefix_take 14 p data1), <- (HasPrefix_take 14 p data2) by exact Hlen.
  rewrite Heq, IH. reflexivity.
Qed.

Lemma detect_reads_first_14_bytes_witness :
  range_order patterns /\
  detectTileFormat patterns
    [x52; x49; x46; x46; xc0; x00; x00; x00; x57; x45; x42; x50; x56; x50; x38; x20] =
  detectTileFormat patterns
    [x52; x49; x46; x46; xc0; x00; x00; x00; x57; x45; x42; x50; x56; x50; x00].
Proof.
  assert (range_order patterns) as Hperm by apply Permutation_refl.
  split; [exact Hperm|].
  apply (detect_reads_first_14_bytes patterns _ _ Hperm). reflexivity.
Defined.

(** A buffer of fewer than two bytes, the empty one included, is never
    detected. *)
Theorem detect_short_buffer iter data :
  range_order iter ->
  (length data < 2)%nat ->
  detectTileFormat iter data =
    (UNKNOWN, Some (errors_New "Could not detect tile format")).
Proof.
  intros Hperm Hlen. apply detectTileFormat_nomatch; [exact Hperm|].
  intros [f p] Hin. destruct (patterns_tags _ _ Hin) as (_ & _ & Hp & _).
  cbn [snd].
  destruct p as [|b1 [|b2 p]]; simpl in Hp; try lia.
  destruct data as [|c1 [|c2 data]]; simpl in Hlen; try lia; simpl;
    [reflexivity|apply andb_false_r].
Qed.

Lemma detect_short_buffer_witness :
  range_order patterns /\ (length (@nil byte) < 2)%nat /\
  detectTileFormat patterns [] =
    (UNKNOWN, Some (errors_New "Could not detect tile format")).
Proof.
  assert (range_order patterns) as Hperm by apply Permutation_refl.
  assert (length (@nil byte) < 2)%nat as Hlen by (simpl; lia).
  split; [exact Hperm|]. split; [exact Hlen|].
  exact (detect_short_buffer patterns [] Hperm Hlen).
Defined.

(** ** Construction of the handle *)

(** What a successful [NewDB] has learnt from its grid probes. *)
Lemma NewDB_grid_probe env path iter_tile iter_grid t h :
  NewDB env path iter_tile iter_grid = (t, Done (Ok h)) ->
  (hasUTFGrid h = false /\ utfgridCompression h = UNKNOWN /\
   hasUTFGridData h = false /\
   ((exists count, count_view (db h) "grids" = Ok count /\ count <> 1%Z) \/
    (count_view (db h) "grids" = Ok 1%Z /\ sample_grid (db h) = Fail ErrNoRows))) \/
  (hasUTFGrid h = true /\
   count_view (db h) "grids" = Ok 1%Z /\
   exists gridData count,
     sample_grid (db h) = Ok gridData /\
     detectTileFormat iter_grid gridData = (utfgridCompression h, None) /\
     count_view (db h) "grid_data" = Ok count /\
     hasUTFGridData h = bool_decide (count = 1%Z)).
Proof.
  unfold NewDB. intros H.
  destruct (sql_Open env path) as [conn|]; [|discriminate].
  destruct (os_Stat env path) as [modTime|]; [|discriminate].
  run.
  destruct (sample_tile conn) as [data|]; [|discriminate].
  destruct (detectTileFormat iter_tile data) as [detected [err|]];
    [discriminate|].
  run.
  destruct (count_view conn "grids") as [count|] eqn:Hcount; [|discriminate].
  destruct (decide (count = 1%Z)) as [->|Hne]; run.
  - destruct (sample_grid conn) as [gridData|[|msg]] eqn:Hgrid; run;
      try discriminate.
    + destruct (detectTileFormat iter_grid gridData) as [compression [err|]] eqn:Hdet;
        [discriminate|]. run.
      destruct (count_view conn "grid_data") as [count|] eqn:Hcount2;
        [|discriminate].
      injection H as _ <-. right. cbn.
      split; [reflexivity|]. split; [exact Hcount|].
      exists gridData, count. auto.
    + injection H as _ <-. left. cbn. auto 10.
  - injection H as _ <-. left. cbn. eauto 10.
Qed.

(** Grid flags of a constructed handle: detail support comes only with
    grid support; without grid support the grid compression is [UNKNOWN];
    with it, the compression is the tag of a pattern that the sample grid
    begins with, any of the five, so never [UNKNOWN] nor [PBF]. *)
Theorem NewDB_grid_flags env path iter_tile iter_grid t h :
  range_order iter_grid ->
  NewDB env path iter_tile iter_grid = (t, Done (Ok h)) ->
  (hasUTFGridData h = true -> hasUTFGrid h = true) /\
  (hasUTFGrid h = false -> utfgridCompression h = UNKNOWN) /\
  (hasUTFGrid h = true ->
     exists gridData p,
       sample_grid (db h) = Ok gridData /\
       In (utfgridCompression h, p) patterns /\
       HasPrefix gridData p = true).
Proof.
  intros Hperm Hnew.
  destruct (NewDB_grid_probe _ _ _ _ _ _ Hnew)
    as [(Hg & Hc & Hd & _)|(Hg & _ & gridData & count & Hs & Hdet & _)].
  - rewrite Hg, Hd. repeat split; (discriminate || auto).
  - rewrite Hg. repeat split; try discriminate; auto.
    intros _.
    destruct (detectTileFormat_tags _ _ _ Hperm Hdet) as (p & Hin & Hpre). eauto.
Qed.

Lemma NewDB_grid_flags_witness :
  range_order (rev patterns) /\
  exists t h,
    NewDB (Sample.env_of Sample.plain_grid_store)
          "grids.mbtiles" patterns (rev patterns) = (t, Done (Ok h)) /\
    hasUTFGrid h = true /\
    exists gridData p,
      sample_grid (db h) = Ok gridData /\
      In (utfgridCompression h, p) patterns /\
      HasPrefix gridData p = true.
Proof.
  assert (range_order (rev patterns)) as Hperm
    by (unfold range_order; symmetry; apply Permutation_rev).
  split; [exact Hperm|].
  eexists _, _. split; [reflexivity|]. split; [reflexivity|].
  match goal with
  | |- context [sample_grid (db ?h)] =>
      pose proof (NewDB_grid_flags (Sample.env_of Sample.plain_grid_store)
                    "grids.mbtiles" patterns (rev patterns) _ h
                    Hperm eq_refl) as (_ & _ & Hgrid)
  end.
  apply Hgrid. reflexivity.
Defined.

(** The tile format of a constructed handle: the sample tile begins with
    one of the five patterns, and the handle records that pattern's tag,
    with PBF in place of GZIP; so it is never [UNKNOWN]. *)
Theorem NewDB_tile_format_detected env path iter_tile iter_grid t h :
  range_order iter_tile ->
  NewDB env path iter_tile iter_grid = (t, Done (Ok h)) ->
  tileformat h <> UNKNOWN /\
  exists data f p,
    sample_tile (db h) = Ok data /\
    In (f, p) patterns /\
    HasPrefix data p = true /\
    tileformat h = (if decide (f = GZIP) then PBF else f).
Proof.
  intros Hperm Hnew.
  destruct (NewDB_accepts _ _ _ _ _ _ Hnew)
    as (conn & modTime & data & detected & _ & _ & Hsample & Hdet & _ & Hdb & Htf & _).
  destruct (detectTileFormat_tags _ _ _ Hperm Hdet) as (p & Hin & Hpre).
  split.
  - rewrite Htf. destruct (decide (detected = GZIP)); [discriminate|].
    apply (patterns_tags _ _ Hin).
  - exists data, detected, p. rewrite Hdb. auto.
Qed.

Lemma NewDB_tile_format_detected_witness :
  range_order patterns /\
  exists t h,
    NewDB Sample.vector_env "tiles/world.mbtiles" patterns patterns
      = (t, Done (Ok h)) /\
    tileformat h <> UNKNOWN.
Proof.
  assert (range_order patterns) as Hperm by apply Permutation_refl.
  split; [exact Hperm|].
  eexists _, _. split; [reflexivity|].
  match goal with
  | |- tileformat ?h <> _ =>
      exact (proj1 (NewDB_tile_format_detected Sample.vector_env
                      "tiles/world.mbtiles" patterns patterns _ h Hperm eq_refl))
  end.
Defined.

(** The content type and the format name of a constructed handle are both
    empty or both set; they are empty exactly when the tiles are in a zlib
    envelope, the one detected tile format without a content type. *)
Theorem NewDB_content_type env path iter_tile iter_grid t h :
  range_order iter_tile ->
  NewDB env path iter_tile iter_grid = (t, Done (Ok h)) ->
  (DB_ContentType h = EmptyString <-> tileformat h = ZLIB) /\
  (DB_TileFormatString h = EmptyString <-> tileformat h = ZLIB).
Proof.
  intros Hperm Hnew.
  destruct (NewDB_accepts _ _ _ _ _ _ Hnew)
    as (conn & modTime & data & f & _ & _ & _ & Hdet & _ & _ & Htf & _).
  destruct (detectTileFormat_tags _ _ _ Hperm Hdet) as (p & Hin & _).
  assert (tileformat h <> UNKNOWN) as Hu.
  { rewrite Htf. destruct (decide (f = GZIP)); [discriminate|].
    apply (patterns_tags _ _ Hin). }
  assert (tileformat h <> GZIP) as Hg
    by (rewrite Htf; destruct (decide (f = GZIP)); congruence).
  unfold DB_ContentType, DB_TileFormatString.
  destruct (tileformat h); simpl; split; split; intros H;
    congruence || discriminate H.
Qed.

Lemma NewDB_content_type_witness :
  range_order patterns /\
  exists t h,
    NewDB Sample.vector_env "tiles/world.mbtiles" patterns patterns
      = (t, Done (Ok h)) /\
    DB_ContentType h = "application/x-protobuf" /\
    (DB_ContentType h = EmptyString <-> tileformat h = ZLIB).
Proof.
  assert (range_order patterns) as Hperm by apply Permutation_refl.
  split; [exact Hperm|].
  eexists _, _. split; [reflexivity|]. split; [reflexivity|].
  match goal with
  | |- DB_ContentType ?h = _ <-> _ =>
      exact (proj1 (NewDB_content_type Sample.vector_env
                      "tiles/world.mbtiles" patterns patterns _ h Hperm eq_refl))
  end.
Defined.

Lemma Round_nearest t d :
  (0 < d)%Z ->
  (Round t d mod d = 0)%Z /\ (- d < 2 * (Round t d - t) <= d)%Z.
Proof.
  intros Hd. unfold Round.
  pose proof (Z.mod_pos_bound t d Hd) as Hr.
  pose proof (Z.div_mod t d ltac:(lia)) as Hdm.
  destruct (t mod d + t mod d <? d)%Z eqn:Hlt;
    [apply Z.ltb_lt in Hlt|apply Z.ltb_ge in Hlt]; split; try lia.
  - replace (t - t mod d)%Z with ((t / d) * d)%Z by lia. apply Z.mod_mul. lia.
  - replace (t + (d - t mod d))%Z with ((t / d + 1) * d)%Z by lia.
    apply Z.mod_mul. lia.
Qed.

(** The time stamp of a constructed handle is the file's modification time
    rounded to the nearest whole second, a half second going up. *)
Theorem NewDB_timestamp_rounded env path iter_tile iter_grid t h :
  NewDB env path iter_tile iter_grid = (t, Done (Ok h)) ->
  exists modTime,
    os_Stat env path = Ok modTime /\
    (DB_TimeStamp h mod Second = 0)%Z /\
    (- Second < 2 * (DB_TimeStamp h - modTime) <= Second)%Z.
Proof.
  intros Hnew.
  destruct (NewDB_accepts _ _ _ _ _ _ Hnew)
    as (conn & modTime & data & detected & _ & Hstat & _ & _ & _ & _ & _ & Hts).
  exists modTime. split; [exact Hstat|].
  unfold DB_TimeStamp. rewrite Hts. apply Round_nearest. reflexivity.
Qed.

Lemma NewDB_timestamp_rounded_witness :
  exists t h,
    NewDB Sample.vector_env "tiles/world.mbtiles" patterns patterns
      = (t, Done (Ok h)) /\
    os_Stat Sample.vector_env "tiles/world.mbtiles" = Ok 1500000000%Z /\
    DB_TimeStamp h = 2000000000%Z /\
    (DB_TimeStamp h mod Second = 0)%Z.
Proof.
  eexists _, _. split; [reflexivity|]. split; [reflexivity|].
  split; [reflexivity|].
  match goal with
  | |- (DB_TimeStamp ?h mod _ = _)%Z =>
      destruct (NewDB_timestamp_rounded Sample.vector_env "tiles/world.mbtiles"
                  patterns patterns _ h eq_refl) as (m & _ & Hmod & _)
  end.
  exact Hmod.
Defined.

(** Whatever the container, [NewDB] does not panic and issues only its four
    probes, in order, stopping at the first that ends construction. *)
Theorem NewDB_issues_probes_only env path iter_tile iter_grid :
  issued (NewDB env path iter_tile iter_grid) `prefix_of`
    [SelectSampleTile; CountView "grids"; SelectSampleGrid; CountView "grid_data"] /\
  exists r, returned (NewDB env path iter_tile iter_grid) = Done r.
Proof.
  unfold NewDB.
  repeat match goal with
         | |- context [match ?x with _ => _ end] =>
             lazymatch x with
             | context [match _ with _ => _ end] => fail
             | _ => destruct x
             end; run
         end;
    (split; [|eexists; reflexivity]);
    cbn; eauto using prefix_nil, prefix_cons, prefix_cons_alt.
Qed.

(** ** Reading a tile *)

(** [ReadTile] issues the one lookup.  It returns an error exactly when the
    lookup fails for another reason than a missing row, and then leaves the
    caller's slice alone; without error, the output is the stored tile, or
    empty when there is no row. *)
Theorem ReadTile_result tileset z x y data out err :
  returned (ReadTile tileset z x y data) = Done (out, err) ->
  issued (ReadTile tileset z x y data) = [SelectTile z x y] /\
  match err with
  | None =>
      tile_at (db tileset) z x y = Ok out \/
      (tile_at (db tileset) z x y = Fail ErrNoRows /\ out = [])
  | Some e =>
      tile_at (db tileset) z x y = Fail e /\ e <> ErrNoRows /\ out = data
  end.
Proof.
  unfold ReadTile. run.
  destruct (tile_at (db tileset) z x y) as [tile|[|msg]]; run;
    intros H; injection H as <- <-; split; auto.
Qed.

Lemma ReadTile_result_witness :
  returned (ReadTile Sample.vector_handle 3 1 2 [x00]) = Done ([], None) /\
  issued (ReadTile Sample.vector_handle 3 1 2 [x00]) = [SelectTile 3 1 2] /\
  tile_at (db Sample.vector_handle) 3 1 2 = Fail ErrNoRows.
Proof.
  split; [reflexivity|].
  destruct (ReadTile_result Sample.vector_handle 3 1 2 [x00] [] None eq_refl)
    as [Hq [H|[H _]]]; [discriminate H|].
  split; [exact Hq|exact H].
Defined.

(** ** Reading a grid *)

Lemma fold_insert_lookup_other {V B} (f : string * B -> V)
    (l : list (string * B)) (acc : gmap string V) k :
  ~ In k (map fst l) ->
  fold_left (fun m kv => <[kv.1 := f kv]> m) l acc !! k = acc !! k.
Proof.
  revert acc. induction l as [|[k' v'] l IH]; intros acc Hnot; [reflexivity|].
  cbn [fold_left map fst snd In] in *.
  rewrite IH by tauto. apply lookup_insert_ne. tauto.
Qed.

Lemma fold_insert_is_Some {V B} (f : string * B -> V)
    (l : list (string * B)) (acc : gmap string V) k :
  is_Some (fold_left (fun m kv => <[kv.1 := f kv]> m) l acc !! k) <->
  is_Some (acc !! k) \/ In k (map fst l).
Proof.
  revert acc. induction l as [|[k' v'] l IH]; intros acc.
  - cbn. tauto.
  - cbn [fold_left map fst snd In]. rewrite IH.
    destruct (decide (k' = k)) as [->|Hne].
    + rewrite lookup_insert_eq. split; [auto|]. intros _. left. eauto.
    + rewrite lookup_insert_ne by exact Hne. tauto.
Qed.

Section ReadGridMore.

Variables zlib gzip : Envelope.
Variables json_Unmarshal json_Decode : bytes -> result value.
Variable json_Encode : value -> result bytes.

Local Abbreviation readGrid :=
  (ReadGrid zlib gzip json_Unmarshal json_Decode json_Encode).

(** Case analysis along the branches of [ReadGrid]. *)
Ltac ReadGrid_branches :=
  unfold ReadGrid, assign, Decode_map, store_map; run;
  repeat match goal with
         | |- context [match ?x with _ => _ end] =>
             lazymatch x with
             | context [match _ with _ => _ end] => fail
             | _ => destruct x eqn:?
             end; run
         end.

(** [ReadGrid] looks up the grid and then, at most, the detail rows of the
    same coordinate; it issues no other query. *)
Theorem ReadGrid_issues_lookups tileset z x y data :
  issued (readGrid tileset z x y data) `prefix_of`
    [SelectGrid z x y; SelectGridData z x y].
Proof.
  ReadGrid_branches; cbn;
    eauto using prefix_nil, prefix_cons, prefix_cons_alt.
Qed.


(** The only panic of [ReadGrid] is the assignment into a nil grid map: it
    happens only on a handle with both views, at a coordinate with a stored
    grid and at least one detail row, when the envelope is accepted and what
    it holds does not decode to a JSON object. *)
Theorem ReadGrid_panics_only_on_nil_grid_map tileset z x y data msg :
  returned (readGrid tileset z x y data) = Panic msg ->
  msg = "assignment to entry in nil map" /\
  hasUTFGrid tileset = true /\
  hasUTFGridData tileset = true /\
  exists blob rows keydata stream,
    grid_at (db tileset) z x y = Ok blob /\
    grid_data_at (db tileset) z x y = Ok rows /\
    grid_data_loop json_Unmarshal rows ∅ = Ok keydata /\
    NewReader (envelope_of zlib gzip tileset) blob = Ok stream /\
    keydata ≠ ∅ /\
    forall fields, json_Decode stream ≠ Ok (Object fields).
Proof.
  intros H. revert H. ReadGrid_branches; intros H; try discriminate H;
    injection H as <-;
    (split; [reflexivity|]);
    (split; [destruct (hasUTFGrid tileset); simpl in *; congruence|]);
    (split; [reflexivity|]);
    do 4 eexists; repeat (split; [first [reflexivity|eassumption]|]);
    (split; [match goal with
             | Hsize : size _ ≠ 0 |- _ =>
                 intros Hk; apply Hsize; rewrite Hk; apply map_size_empty
             end|]);
    intros fields Hf; congruence.
Qed.

(** On a handle with grid support, a grid lookup that fails ends the call
    after that one query: a missing row is an empty result without error,
    any other failure is returned with the caller's slice as it was. *)
Theorem ReadGrid_lookup_failure tileset z x y data e :
  hasUTFGrid tileset = true ->
  grid_at (db tileset) z x y = Fail e ->
  issued (readGrid tileset z x y data) = [SelectGrid z x y] /\
  returned (readGrid tileset z x y data) =
    Done (if decide (e = ErrNoRows) then ([], None) else (data, Some e)).
Proof.
  intros Hgrid Hat. unfold ReadGrid. rewrite Hgrid. run. rewrite Hat.
  destruct e; split; reflexivity.
Qed.

(** When [ReadGrid] returns an error, its output is the caller's slice as
    it was, or, once the lookup has found the stored grid, that grid as
    stored; a grid with merged data never comes with an error. *)
Theorem ReadGrid_error_keeps_blob tileset z x y data out e :
  returned (readGrid tileset z x y data) = Done (out, Some e) ->
  grid_at (db tileset) z x y = Ok out \/
  (out = data /\
   (hasUTFGrid tileset = false \/ grid_at (db tileset) z x y = Fail e)).
Proof.
  intros H. revert H. ReadGrid_branches; intros H; try discriminate H;
    injection H as <- <-; auto.
  right. split; [reflexivity|]. left.
  destruct (hasUTFGrid tileset); [discriminate|reflexivity].
Qed.


(** The data mapping that the loop of [ReadGrid] builds from rows that all
    scan has exactly the rows' key names as its keys, and under a key that
    several rows share it holds the value of the last of them. *)
Theorem keydata_last_row_wins (kvs : list (string * bytes)) keydata k :
  grid_data_loop json_Unmarshal (map Ok kvs) ∅ = Ok keydata ->
  (is_Some (keydata !! k) <-> In k (map fst kvs)) /\
  (forall l1 v l2,
      kvs = l1 ++ (k, v) :: l2 -> ~ In k (map fst l2) ->
      keydata !! k = Some (row_value json_Unmarshal v)).
Proof.
  rewrite grid_data_loop_scanned. intros H. injection H as <-. split.
  - rewrite fold_insert_is_Some, lookup_empty.
    split; [intros [[? H]|H]; [discriminate H|exact H]|auto].
  - intros l1 v l2 -> Hnot. rewrite fold_left_app. cbn [fold_left].
    rewrite fold_insert_lookup_other by exact Hnot.
    apply lookup_insert_eq.
Qed.

(** With at least one detail row, a stored grid that decodes to a JSON
    object comes back re-encoded in the envelope selected from the handle's
    grid compression, gzip included, with its data field set to the mapping
    built from the rows, in place of a data field it may have had. *)
Theorem ReadGrid_merges_in_handle_envelope tileset z x y data blob kvs stream
    grid encoded :
  hasUTFGrid tileset = true ->
  hasUTFGridData tileset = true ->
  grid_at (db tileset) z x y = Ok blob ->
  grid_data_at (db tileset) z x y = Ok (map Ok kvs) ->
  kvs ≠ [] ->
  NewReader (envelope_of zlib gzip tileset) blob = Ok stream ->
  json_Decode stream = Ok (Object grid) ->
  json_Encode
    (Object (<["data" := Object (fold_left
                 (fun m kv => <[kv.1 := row_value json_Unmarshal kv.2]> m)
                 kvs ∅)]> grid)) = Ok encoded ->
  returned (readGrid tileset z x y data) =
  Done (Writer (envelope_of zlib gzip tileset) encoded, None).
Proof.
  intros Hgrid Hdata Hblob Hrows Hne Hread Hdec Henc.
  rewrite (ReadGrid_merge_path _ _ _ _ _ _ _ _ _ _ _ _ stream
             Hgrid Hdata Hblob Hrows Hne Hread).
  unfold Decode_map, store_map. rewrite Hdec.
  cbn [fst default]. rewrite map_fmap_id, (right_id_L ∅ (∪)).
  unfold assign; run. cbn [interface_of_map]. rewrite Henc. reflexivity.
Qed.

Lemma grid_data_loop_unscanned (kvs : list (string * bytes)) err rest acc :
  grid_data_loop json_Unmarshal (map Ok kvs ++ Fail err :: rest) acc =
  Fail (errors_New ("could not fetch grid data: " +:+ fmt_v err)).
Proof.
  revert acc. induction kvs as [|[k v] kvs IH]; intros acc; [reflexivity|].
  cbn [map app grid_data_loop].
  destruct (Unmarshal_map json_Unmarshal (fun v => v) v (Some ∅)) as [m e].
  apply IH.
Qed.

(** A detail row that does not scan fails the call, whatever rows come
    before and after it: [ReadGrid] returns the scan error, wrapped, and the
    stored grid without any data merged. *)
Theorem ReadGrid_scan_failure tileset z x y data blob kvs err rest :
  hasUTFGrid tileset = true ->
  hasUTFGridData tileset = true ->
  grid_at (db tileset) z x y = Ok blob ->
  grid_data_at (db tileset) z x y = Ok (map Ok kvs ++ Fail err :: rest) ->
  returned (readGrid tileset z x y data) =
  Done (blob, Some (errors_New ("could not fetch grid data: " +:+ Error err))).
Proof.
  intros Hgrid Hdata Hblob Hrows.
  unfold ReadGrid. rewrite Hgrid. run. rewrite Hblob, Hdata. run.
  rewrite Hrows, grid_data_loop_unscanned. reflexivity.
Qed.

End ReadGridMore.

Lemma ReadGrid_panics_only_on_nil_grid_map_witness :
  returned (Sample.ReadGrid Sample.null_grid_tileset 0 0 0 []) =
    Panic "assignment to entry in nil map" /\
  hasUTFGridData Sample.null_grid_tileset = true /\
  exists stream,
    NewReader (envelope_of Reference.zlib Reference.gzip Sample.null_grid_tileset)
              Sample.null_blob = Ok stream /\
    forall fields, Reference.json_Decode stream ≠ Ok (Object fields).
Proof.
  assert (returned (Sample.ReadGrid Sample.null_grid_tileset 0 0 0 []) =
          Panic "assignment to entry in nil map") as Hpanic
    by (vm_compute; reflexivity).
  split; [exact Hpanic|].
  destruct (ReadGrid_panics_only_on_nil_grid_map Reference.zlib Reference.gzip
              Reference.json_Unmarshal Reference.json_Decode Reference.json_Encode
              Sample.null_grid_tileset 0 0 0 [] _ Hpanic)
    as (_ & _ & Hdata & blob & rows & keydata & stream & Hblob & _ & _ & Hread & _ & Hnot).
  split; [exact Hdata|].
  exists stream. split; [|exact Hnot].
  vm_compute in Hblob. injection Hblob as <-. exact Hread.
Defined.

Lemma ReadGrid_lookup_failure_witness :
  hasUTFGrid Sample.no_details_tileset = true /\
  grid_at (db Sample.no_details_tileset) 1 0 0 = Fail ErrNoRows /\
  issued (Sample.ReadGrid Sample.no_details_tileset 1 0 0 [x00]) =
    [SelectGrid 1 0 0] /\
  returned (Sample.ReadGrid Sample.no_details_tileset 1 0 0 [x00]) =
    Done ([], None).
Proof.
  split; [reflexivity|]. split; [reflexivity|].
  exact (ReadGrid_lookup_failure Reference.zlib Reference.gzip
           Reference.json_Unmarshal Reference.json_Decode Reference.json_Encode
           Sample.no_details_tileset 1 0 0 [x00] ErrNoRows eq_refl eq_refl).
Defined.

Lemma ReadGrid_error_keeps_blob_witness :
  returned (Sample.ReadGrid Sample.corrupt_tileset 0 0 0 []) =
    Done (Sample.json "{'grid': []}", Some (errors_New "zlib: invalid header")) /\
  grid_at (db Sample.corrupt_tileset) 0 0 0 = Ok (Sample.json "{'grid': []}").
Proof.
  assert (returned (Sample.ReadGrid Sample.corrupt_tileset 0 0 0 []) =
          Done (Sample.json "{'grid': []}",
                Some (errors_New "zlib: invalid header"))) as Herr
    by (vm_compute; reflexivity).
  split; [exact Herr|].
  destruct (ReadGrid_error_keeps_blob Reference.zlib Reference.gzip
              Reference.json_Unmarshal Reference.json_Decode Reference.json_Encode
              Sample.corrupt_tileset 0 0 0 [] _ _ Herr) as [H|[_ [H|H]]].
  - exact H.
  - discriminate H.
  - vm_compute in H. discriminate H.
Defined.

Lemma keydata_last_row_wins_witness :
  exists keydata,
    grid_data_loop Reference.json_Unmarshal
      (map Ok [("a", Sample.json "1"); ("b", Sample.json "{}");
               ("a", Sample.json "{'n': 1}")]) ∅ = Ok keydata /\
    keydata !! "a" =
      Some (row_value Reference.json_Unmarshal (Sample.json "{'n': 1}")) /\
    is_Some (keydata !! "b").
Proof.
  eexists. split; [reflexivity|].
  match goal with
  | |- ?keydata !! _ = _ /\ _ =>
      pose proof (keydata_last_row_wins Reference.json_Unmarshal
                    [("a", Sample.json "1"); ("b", Sample.json "{}");
                     ("a", Sample.json "{'n': 1}")] keydata) as Hlast
  end.
  split.
  - destruct (Hlast "a" eq_refl) as [_ H].
    apply (H [("a", Sample.json "1"); ("b", Sample.json "{}")] _ []);
      [reflexivity|intros []].
  - destruct (Hlast "b" eq_refl) as [H _]. apply H. simpl. tauto.
Defined.

Lemma ReadGrid_merges_in_handle_envelope_witness :
  exists out,
    returned (Sample.ReadGrid Sample.gzip_tileset 0 0 0 []) = Done (out, None) /\
    Sample.decompressed_json Reference.gzip out
      (Sample.json "{'grid': ['  !'], 'data': {'a': {'n': 1}}}").
Proof.
  eexists. split.
  - eapply (ReadGrid_merges_in_handle_envelope Reference.zlib Reference.gzip
              Reference.json_Unmarshal Reference.json_Decode Reference.json_Encode
              Sample.gzip_tileset 0 0 0 [] Sample.gzip_blob
              [("a", Sample.json "{'n': 1}")]).
    + reflexivity.
    + reflexivity.
    + reflexivity.
    + reflexivity.
    + discriminate.
    + vm_compute. reflexivity.
    + vm_compute. reflexivity.
    + vm_compute. reflexivity.
  - eexists _, _. split; [vm_compute; reflexivity|].
    split; vm_compute; reflexivity.
Defined.

Lemma ReadGrid_scan_failure_witness :
  grid_data_at (db Sample.unscanned_tileset) 0 0 0 =
    Ok (map Ok [("a", Sample.json "{'n': 1}")]
        ++ Fail (errors_New "sql: Scan error") :: [Ok ("b", Sample.json "{}")]) /\
  returned (Sample.ReadGrid Sample.unscanned_tileset 0 0 0 []) =
    Done (Sample.grid_blob,
          Some (errors_New "could not fetch grid data: sql: Scan error")).
Proof.
  split; [reflexivity|].
  exact (ReadGrid_scan_failure Reference.zlib Reference.gzip
           Reference.json_Unmarshal Reference.json_Decode Reference.json_Encode
           Sample.unscanned_tileset 0 0 0 [] Sample.grid_blob
           [("a", Sample.json "{'n': 1}")] (errors_New "sql: Scan error")
           [Ok ("b", Sample.json "{}")] eq_refl eq_refl eq_refl eq_refl).
Defined.

(** ** Reading the metadata *)

Section ReadMetadataMore.

Variable json_Unmarshal : bytes -> result value.
Variable stringToFloats : string -> list float64 * option error.

Local Abbreviation readMetadata := (ReadMetadata json_Unmarshal stringToFloats).
Local Abbreviation rows_loop := (metadata_loop json_Unmarshal stringToFloats).
Local Abbreviation row_case := (metadata_case json_Unmarshal stringToFloats).

Lemma metadata_case_typed key value (m : gmap string mdval) :
  key <> "json" ->
  row_case key value (Some m) =
  ([], Done (match (typed_value stringToFloats key value).2 with
             | Some err => Fail (Errorf_item key err)
             | None =>
                 Ok (Some (<[key := (typed_value stringToFloats key value).1]> m))
             end)).
Proof.
  intros Hkey. unfold metadata_case, typed_value, assign.
  destruct (decide (key = "maxzoom" \/ key = "minzoom")).
  - destruct (strconv_Atoi value) as [n [err|]]; reflexivity.
  - destruct (decide (key = "bounds" \/ key = "center")).
    + destruct (stringToFloats value) as [fs [err|]]; reflexivity.
    + destruct (decide (key = "json")); [contradiction|reflexivity].
Qed.

Lemma metadata_case_json value (metadata : gomap mdval) :
  row_case "json" value metadata =
  ([], Done (match Unmarshal_map json_Unmarshal MJSON
                     (String.list_byte_of_string value) metadata with
             | (_, Some err) =>
                 Fail (errors_New
                         ("unable to parse JSON metadata item: " +:+ fmt_v err))
             | (metadata, None) => Ok metadata
             end)).
Proof.
  unfold metadata_case.
  destruct (decide ("json" = "maxzoom" \/ "json" = "minzoom")) as [[H|H]|_];
    try discriminate H.
  destruct (decide ("json" = "bounds" \/ "json" = "center")) as [[H|H]|_];
    try discriminate H.
  destruct (decide ("json" = "json")); [|contradiction].
  destruct (Unmarshal_map _ _ _ _) as [md [err|]]; reflexivity.
Qed.


Lemma metadata_loop_converting pairs key value (m : gmap string mdval) :
  Forall (converts stringToFloats) pairs ->
  rows_loop (scanned pairs) key value (Some m) =
  ([], Done (Ok (Some (typed_rows stringToFloats pairs m)))).
Proof.
  intros H. revert key value m.
  induction H as [|[k v] pairs [Hk Hv] _ IH]; intros key value m; [reflexivity|].
  cbn [scanned map metadata_loop scan_into fst snd] in *.
  rewrite (metadata_case_typed _ _ _ Hk), Hv. run.
  fold (scanned pairs). rewrite IH. reflexivity.
Qed.

Lemma metadata_loop_converting_then pairs k v rest key value
    (m : gmap string mdval) :
  Forall (converts stringToFloats) pairs ->
  rows_loop (scanned pairs ++ ScanBoth k v :: rest) key value (Some m) =
  (r ← row_case k v (Some (typed_rows stringToFloats pairs m));
   match r with
   | Fail err => mret (Fail err)
   | Ok metadata => rows_loop rest k v metadata
   end).
Proof.
  intros H. revert key value m.
  induction H as [|[k1 v1] pairs [Hk Hv] _ IH]; intros key value m; [reflexivity|].
  cbn [scanned map app metadata_loop scan_into fst snd] in *.
  rewrite (metadata_case_typed _ _ _ Hk), Hv. run.
  fold (scanned pairs). rewrite IH.
  destruct (row_case k v _) as [t [[md|err]|msg]]; run; try reflexivity.
  destruct (rows_loop rest k v md); reflexivity.
Qed.

(** A failure of row processing fails the call: no mapping is returned,
    and the tile index is not consulted. *)
Lemma ReadMetadata_row_failure tileset rows err :
  metadata_rows (db tileset) = Ok rows ->
  rows_loop rows EmptyString EmptyString (Some ∅) = ([], Done (Fail err)) ->
  readMetadata tileset = ([SelectMetadata], Done (None, Some err)).
Proof.
  intros Hrows Hloop. unfold ReadMetadata. run. rewrite Hrows, Hloop.
  reflexivity.
Qed.

(** Typed conversion: when every row of the metadata table scans, none is
    [json], every conversion succeeds, and both zoom bounds are among the
    keys, [ReadMetadata] returns the rows as a typed mapping (integers for
    the zoom bounds, floats for bounds and center, strings otherwise, the
    last row of a key winning) and does not consult the tile index. *)
Theorem ReadMetadata_typed_rows tileset pairs :
  metadata_rows (db tileset) = Ok (scanned pairs) ->
  Forall (converts stringToFloats) pairs ->
  In "minzoom" (map fst pairs) ->
  In "maxzoom" (map fst pairs) ->
  readMetadata tileset =
  ([SelectMetadata], Done (Some (typed_rows stringToFloats pairs ∅), None)).
Proof.
  intros Hrows Hconv Hmin Hmax.
  pose proof (metadata_loop_converting pairs EmptyString EmptyString ∅ Hconv)
    as Hloop.
  destruct (ReadMetadata_zoom_fallback json_Unmarshal stringToFloats tileset
              (scanned pairs) (Some (typed_rows stringToFloats pairs ∅)) Hrows)
    as (Hboth & _).
  { rewrite Hloop. reflexivity. }
  apply Hboth. unfold has_key, typed_rows.
  rewrite !bool_decide_eq_true_2; [reflexivity| |];
    apply fold_insert_is_Some; right; assumption.
Qed.

(** A conversion failure is fatal: at the first row whose conversion
    fails, after rows that convert, [ReadMetadata] returns no mapping and an
    error naming the key, whatever rows follow, and does not consult the tile
    index. *)
Theorem ReadMetadata_conversion_failure tileset pairs key value err rest :
  metadata_rows (db tileset) = Ok (scanned pairs ++ ScanBoth key value :: rest) ->
  Forall (converts stringToFloats) pairs ->
  key <> "json" ->
  (typed_value stringToFloats key value).2 = Some err ->
  readMetadata tileset =
  ([SelectMetadata], Done (None, Some (Errorf_item key err))).
Proof.
  intros Hrows Hconv Hkey Herr.
  apply (ReadMetadata_row_failure _ _ _ Hrows).
  rewrite (metadata_loop_converting_then _ _ _ _ _ _ _ Hconv).
  rewrite (metadata_case_typed _ _ _ Hkey), Herr. reflexivity.
Qed.


(** The [json] row: when it comes last, after rows that convert, and its
    value is a JSON object, the fields of the object are in the mapping at
    the top level, in place of earlier rows of the same names; the other
    keys keep what the earlier rows gave them, and nothing is stored under
    [json] unless the object has such a field. *)
Theorem metadata_json_spliced pairs text fields :
  Forall (converts stringToFloats) pairs ->
  json_Unmarshal (String.list_byte_of_string text) = Ok (Object fields) ->
  exists spliced,
    rows_loop (scanned pairs ++ [ScanBoth "json" text])
              EmptyString EmptyString (Some ∅)
      = ([], Done (Ok (Some spliced))) /\
    forall k,
      spliced !! k =
      match fields !! k with
      | Some v => Some (MJSON v)
      | None => typed_rows stringToFloats pairs ∅ !! k
      end.
Proof.
  intros Hconv Hjson.
  exists ((MJSON <$> fields) ∪ typed_rows stringToFloats pairs ∅). split.
  - rewrite (metadata_loop_converting_then _ _ _ _ _ _ _ Hconv).
    rewrite metadata_case_json. unfold Unmarshal_map, store_map.
    rewrite Hjson. reflexivity.
  - intros k. rewrite lookup_union, lookup_fmap.
    destruct (fields !! k) as [v|]; simpl.
    + destruct (typed_rows stringToFloats pairs ∅ !! k); reflexivity.
    + destruct (typed_rows stringToFloats pairs ∅ !! k); reflexivity.
Qed.

(** A [json] row whose value is not JSON, or is JSON but neither an object
    nor [null], is fatal: [ReadMetadata] returns no mapping and the wrapped
    error, and does not consult the tile index. *)
Theorem ReadMetadata_malformed_json tileset pairs text rest :
  metadata_rows (db tileset) = Ok (scanned pairs ++ ScanBoth "json" text :: rest) ->
  Forall (converts stringToFloats) pairs ->
  (forall fields,
      json_Unmarshal (String.list_byte_of_string text) <> Ok (Object fields)) ->
  json_Unmarshal (String.list_byte_of_string text) <> Ok Null ->
  exists err,
    readMetadata tileset =
    ([SelectMetadata],
     Done (None, Some (errors_New
                         ("unable to parse JSON metadata item: " +:+ Error err)))).
Proof.
  intros Hrows Hconv Hobj Hnull.
  assert (exists err,
             row_case "json" text (Some (typed_rows stringToFloats pairs ∅)) =
             ([], Done (Fail (errors_New
                ("unable to parse JSON metadata item: " +:+ Error err)))))
    as [err Hcase].
  { rewrite metadata_case_json. unfold Unmarshal_map, store_map.
    destruct (json_Unmarshal (String.list_byte_of_string text)) as [[]|e];
      try (eexists; reflexivity).
    - contradiction.
    - exfalso. eapply Hobj. reflexivity. }
  exists err. apply (ReadMetadata_row_failure _ _ _ Hrows).
  rewrite (metadata_loop_converting_then _ _ _ _ _ _ _ Hconv), Hcase.
  reflexivity.
Qed.

Lemma metadata_loop_no_panic rows key value (m : gmap string mdval) :
  (forall v, In ("json", v) (scanned_pairs rows key value) ->
             json_Unmarshal (String.list_byte_of_string v) <> Ok Null) ->
  exists r,
    rows_loop rows key value (Some m) = ([], Done r) /\
    forall metadata, r = Ok metadata -> metadata <> None.
Proof.
  revert key value m.
  induction rows as [|row rows IH]; intros key value m Hnull.
  - exists (Ok (Some m)). split; [reflexivity|]. intros md H. congruence.
  - cbn [metadata_loop scanned_pairs] in *.
    destruct (scan_into row key value) as [k v].
    assert (exists r, row_case k v (Some m) = ([], Done r) /\
                      forall md, r = Ok md -> md <> None) as (r & Hcase & Hsome).
    { destruct (decide (k = "json")) as [->|Hk].
      - rewrite metadata_case_json. unfold Unmarshal_map, store_map.
        destruct (json_Unmarshal (String.list_byte_of_string v)) as [[]|e] eqn:Hj;
          try (eexists; split; [reflexivity|]; intros md H; congruence).
        exfalso. apply (Hnull v); [left; reflexivity|exact Hj].
      - rewrite (metadata_case_typed _ _ _ Hk).
        eexists. split; [reflexivity|].
        intros md H. destruct (typed_value stringToFloats k v).2; congruence. }
    rewrite Hcase. run. destruct r as [[m'|]|err].
    + destruct (IH k v m') as (r' & Hloop & Hsome').
      { intros v' Hin. apply Hnull. right. exact Hin. }
      rewrite Hloop. eauto.
    + exfalso. eapply Hsome; reflexivity.
    + eexists. split; [reflexivity|]. intros md H. congruence.
Qed.

(** [ReadMetadata] does not panic unless a [json] row holds [null]: when no
    row that the loop sees under the key [json] decodes to [null], the call
    returns a mapping or an error. *)
Theorem ReadMetadata_no_panic_without_null_json tileset :
  (forall rows v,
      metadata_rows (db tileset) = Ok rows ->
      In ("json", v) (scanned_pairs rows EmptyString EmptyString) ->
      json_Unmarshal (String.list_byte_of_string v) <> Ok Null) ->
  exists r, returned (readMetadata tileset) = Done r.
Proof.
  intros Hnull. unfold ReadMetadata. run.
  destruct (metadata_rows (db tileset)) as [rows|err] eqn:Hrows;
    [|eexists; reflexivity].
  destruct (metadata_loop_no_panic rows EmptyString EmptyString ∅
              (fun v => Hnull rows v eq_refl)) as (r & Hloop & Hsome).
  rewrite Hloop. run. destruct r as [[m|]|err]; run.
  - unfold infer_zoom, assign.
    destruct (negb _); run; [|eexists; reflexivity].
    destruct (zoom_range (db tileset)) as [[minZoom maxZoom]|]; run;
      eexists; reflexivity.
  - exfalso. eapply Hsome; reflexivity.
  - eexists. reflexivity.
Qed.

(** [ReadMetadata] reads the metadata table and then, at most, the zoom
    range of the tile index; it issues no other query. *)
Theorem ReadMetadata_issues_lookups tileset :
  issued (readMetadata tileset) = [SelectMetadata] \/
  issued (readMetadata tileset) = [SelectMetadata; SelectZoomRange].
Proof.
  unfold ReadMetadata. run.
  destruct (metadata_rows (db tileset)) as [rows|err]; [|left; reflexivity].
  pose proof (metadata_loop_silent json_Unmarshal stringToFloats rows
                EmptyString EmptyString (Some ∅)) as Hsilent.
  destruct (rows_loop rows EmptyString EmptyString (Some ∅)) as [t r].
  cbn [issued fst] in Hsilent. subst t. run.
  destruct r as [[md|err]|msg]; run; try (left; reflexivity).
  unfold infer_zoom, assign.
  destruct (negb _); run; [|left; reflexivity].
  destruct (zoom_range (db tileset)) as [[minZoom maxZoom]|]; run;
    [|right; reflexivity].
  destruct md; run; right; reflexivity.
Qed.

End ReadMetadataMore.

(** Rows given in full that all convert. *)
Ltac all_convert :=
  repeat first
    [ constructor; [split; [discriminate|vm_compute; reflexivity]|]
    | constructor ].

Lemma ReadMetadata_typed_rows_witness :
  metadata_rows (db Sample.typed_tileset) = Ok (scanned Sample.typed_pairs) /\
  Sample.ReadMetadata Sample.typed_tileset =
    ([SelectMetadata],
     Done (Some (<["name" := MString "World"]>
                   (<["bounds" := MFloats (Reference.stringToFloats "-180,-85,180,85").1]>
                      (<["maxzoom" := MInt 14]> {["minzoom" := MInt 0]}))),
           None)).
Proof.
  split; [reflexivity|]. unfold Sample.ReadMetadata.
  rewrite (ReadMetadata_typed_rows Reference.json_Unmarshal Reference.stringToFloats
             Sample.typed_tileset Sample.typed_pairs eq_refl).
  - vm_compute. reflexivity.
  - all_convert.
  - simpl. tauto.
  - simpl. tauto.
Defined.

Lemma ReadMetadata_conversion_failure_witness :
  (typed_value Reference.stringToFloats "minzoom" "low").2 =
    Some (NumError "low" "invalid syntax") /\
  Sample.ReadMetadata Sample.bad_zoom_tileset =
    ([SelectMetadata],
     Done (None, Some (Errorf_item "minzoom" (NumError "low" "invalid syntax")))).
Proof.
  assert ((typed_value Reference.stringToFloats "minzoom" "low").2 =
          Some (NumError "low" "invalid syntax")) as Herr by reflexivity.
  split; [exact Herr|].
  apply (ReadMetadata_conversion_failure Reference.json_Unmarshal
           Reference.stringToFloats Sample.bad_zoom_tileset
           [("name", "world")] "minzoom" "low" _ (scanned [("maxzoom", "3")])).
  - reflexivity.
  - all_convert.
  - discriminate.
  - exact Herr.
Defined.

Lemma metadata_json_spliced_witness :
  exists spliced,
    metadata_loop Reference.json_Unmarshal Reference.stringToFloats
      (scanned [("name", "world"); ("attribution", "old")]
       ++ [ScanBoth "json" Sample.spliced_text])
      EmptyString EmptyString (Some ∅) = ([], Done (Ok (Some spliced))) /\
    spliced !! "attribution" = Some (MJSON (Str "new")) /\
    spliced !! "name" = Some (MString "world") /\
    spliced !! "json" = None.
Proof.
  destruct (metadata_json_spliced Reference.json_Unmarshal Reference.stringToFloats
              [("name", "world"); ("attribution", "old")] Sample.spliced_text
              {[ "attribution" := Str "new"; "vector_layers" := Array [] ]})
    as (spliced & Hloop & Hlookup).
  - all_convert.
  - vm_compute. reflexivity.
  - exists spliced. split; [exact Hloop|].
    rewrite !Hlookup. repeat split; vm_compute; reflexivity.
Defined.

Lemma ReadMetadata_malformed_json_witness :
  Reference.json_Unmarshal (String.list_byte_of_string "[1]") =
    Ok (Array [Number (Reference.float_of_Z false 1)]) /\
  exists err,
    Sample.ReadMetadata Sample.array_json_tileset =
    ([SelectMetadata],
     Done (None, Some (errors_New
                         ("unable to parse JSON metadata item: " +:+ Error err)))).
Proof.
  split; [vm_compute; reflexivity|].
  apply (ReadMetadata_malformed_json Reference.json_Unmarshal
           Reference.stringToFloats Sample.array_json_tileset
           [("name", "world")] "[1]" (scanned [("minzoom", "1")])).
  - reflexivity.
  - all_convert.
  - intros fields H. vm_compute in H. discriminate H.
  - intros H. vm_compute in H. discriminate H.
Defined.

Lemma ReadMetadata_no_panic_without_null_json_witness :
  exists r, returned (Sample.ReadMetadata Sample.spliced_tileset) = Done r.
Proof.
  apply (ReadMetadata_no_panic_without_null_json Reference.json_Unmarshal
           Reference.stringToFloats Sample.spliced_tileset).
  intros rows v Hrows Hin. injection Hrows as <-.
  cbn in Hin. destruct Hin as [H|[H|[H|[]]]]; try discriminate H.
  injection H as <-. intros Hnull. vm_compute in Hnull. discriminate Hnull.
Defined.

(** Supplementing the zoom bounds: once the rows have been processed into
    a mapping, [ReadMetadata] returns it as it is, without consulting the tile
    index, when both bounds are present; otherwise it asks the tile index,
    and sets both bounds from the answer (replacing the one that was
    present), or, when the query fails, returns the mapping as it stands
    with no error. *)
Theorem ReadMetadata_supplements_zoom json_Unmarshal stringToFloats tileset rows
    (m : gmap string mdval) :
  metadata_rows (db tileset) = Ok rows ->
  returned (metadata_loop json_Unmarshal stringToFloats rows
              EmptyString EmptyString (Some ∅)) = Done (Ok (Some m)) ->
  if bool_decide (is_Some (m !! "minzoom") /\ is_Some (m !! "maxzoom")) then
    ReadMetadata json_Unmarshal stringToFloats tileset =
      ([SelectMetadata], Done (Some m, None))
  else
    issued (ReadMetadata json_Unmarshal stringToFloats tileset) =
      [SelectMetadata; SelectZoomRange] /\
    returned (ReadMetadata json_Unmarshal stringToFloats tileset) =
      Done (match zoom_range (db tileset) with
            | Ok (minZoom, maxZoom) =>
                Some (<["maxzoom" := MInt maxZoom]>
                        (<["minzoom" := MInt minZoom]> m))
            | Fail _ => Some m
            end, None).
Proof.
  intros Hrows Hloop.
  destruct (ReadMetadata_zoom_fallback json_Unmarshal stringToFloats tileset
              rows (Some m) Hrows Hloop) as (Hboth & Hfail & Hset & _).
  assert (has_key (Some m) "minzoom" && has_key (Some m) "maxzoom" =
          bool_decide (is_Some (m !! "minzoom") /\ is_Some (m !! "maxzoom")))
    as Heq.
  { unfold has_key. repeat case_bool_decide; simpl; tauto. }
  rewrite Heq in *.
  destruct (bool_decide _).
  - apply Hboth. reflexivity.
  - destruct (zoom_range (db tileset)) as [[minZoom maxZoom]|err] eqn:Hz.
    + rewrite (Hset eq_refl minZoom maxZoom m eq_refl eq_refl). split; reflexivity.
    + rewrite (Hfail eq_refl err eq_refl). split; reflexivity.
Qed.

Lemma ReadMetadata_supplements_zoom_witness :
  metadata_rows (db Sample.unbounded_tileset) = Ok (scanned [("name", "world")]) /\
  zoom_range (db Sample.unbounded_tileset) = Ok (2, 8)%Z /\
  Sample.ReadMetadata Sample.unbounded_tileset =
    ([SelectMetadata; SelectZoomRange],
     Done (Some (<["maxzoom" := MInt 8]>
                   (<["minzoom" := MInt 2]> {["name" := MString "world"]})),
           None)).
Proof.
  split; [reflexivity|]. split; [reflexivity|].
  assert (returned (metadata_loop Reference.json_Unmarshal Reference.stringToFloats
                      (scanned [("name", "world")]) EmptyString EmptyString (Some ∅))
          = Done (Ok (Some {["name" := MString "world"]}))) as Hloop
    by (vm_compute; reflexivity).
  pose proof (ReadMetadata_supplements_zoom Reference.json_Unmarshal
                Reference.stringToFloats Sample.unbounded_tileset
                (scanned [("name", "world")]) {["name" := MString "world"]}
                eq_refl Hloop) as H.
  vm_compute bool_decide in H. cbv iota in H. destruct H as [Hq Hr].
  unfold Sample.ReadMetadata.
  destruct (ReadMetadata _ _ _) as [t r]. cbn [issued returned fst snd] in *.
  rewrite Hq, Hr. reflexivity.
Defined.

(** ** Construction, then reading *)

(** A container without a [grids] view (a [grids] table does not count),
    or whose view holds no non-null grid, is opened without grid support, and
    [ReadGrid] on its handle refuses every coordinate without a lookup. *)
Theorem NewDB_without_grids_refuses_grids zlib gzip json_Unmarshal json_Decode
    json_Encode env path iter_tile iter_grid t h z x y data :
  NewDB env path iter_tile iter_grid = (t, Done (Ok h)) ->
  count_view (db h) "grids" <> Ok 1%Z \/ sample_grid (db h) = Fail ErrNoRows ->
  ReadGrid zlib gzip json_Unmarshal json_Decode json_Encode h z x y data =
  ([], Done (data, Some (errors_New "Tileset does not contain UTFgrids"))).
Proof.
  intros Hnew Hnone.
  destruct (NewDB_grid_probe _ _ _ _ _ _ Hnew)
    as [(Hg & _)|(_ & Hcount & gridData & count & Hsample & _)].
  - unfold ReadGrid. rewrite Hg. reflexivity.
  - destruct Hnone as [H|H]; [contradiction|congruence].
Qed.

Lemma NewDB_without_grids_refuses_grids_witness :
  exists t h,
    NewDB Sample.vector_env "tiles/world.mbtiles" patterns patterns
      = (t, Done (Ok h)) /\
    count_view (db h) "grids" = Ok 0%Z /\
    Sample.ReadGrid h 0 0 0 [] =
    ([], Done ([], Some (errors_New "Tileset does not contain UTFgrids"))).
Proof.
  eexists _, _. split; [reflexivity|]. split; [reflexivity|].
  apply (NewDB_without_grids_refuses_grids Reference.zlib Reference.gzip
           Reference.json_Unmarshal Reference.json_Decode Reference.json_Encode
           Sample.vector_env "tiles/world.mbtiles" patterns patterns _ _ 0%Z 0%Z 0%Z []
           eq_refl).
  left. discriminate.
Defined.
